(** * The Jiri build recipe ([infra/recipes/jiri.py]) as a Rocq program

    The recipe is a straight-line Python function, [RunSteps], that
    resolves and checks its trigger properties and then drives three
    collaborators ([api.jiri], [api.git], [api.go]).  It is embedded here
    as a computation in a small monad that records every collaborator call
    together with the step context in force, and that stops at the first
    Python exception. *)

From Stdlib Require Import Ascii.
From stdpp Require Import base option list strings gmap pretty.

(** ** Python values and string methods *)

(** A property declared [Property(kind=str, default=None)] holds a [str] or
    [None]. *)
Inductive PyVal :=
| PyNone
| PyStr (s : string).

#[global] Instance PyVal_eq_dec : EqDecision PyVal.
Proof. solve_decision. Defined.

(** [str(v)], as the [%s] conversion applies it. *)
Definition py_str (v : PyVal) : string :=
  match v with
  | PyNone => "None"
  | PyStr s => s
  end.

(** Truth value of an object: [None] and the empty string are false. *)
Definition truthy (v : PyVal) : bool :=
  match v with
  | PyNone => false
  | PyStr s => negb (String.eqb s "")
  end.

(** [a and b]: [a] when [a] is false, else [b]. *)
Definition py_and (a b : PyVal) : PyVal :=
  if truthy a then b else a.

(** [a == b] on these values. *)
Definition py_eq (a b : PyVal) : bool := bool_decide (a = b).

(** [s.startswith(p)]. *)
Definition startswith (s p : string) : bool := String.prefix p s.

(** Membership of a character in a string of characters. *)
Fixpoint char_in (c : ascii) (chars : string) : bool :=
  match chars with
  | EmptyString => false
  | String d chars' => Ascii.eqb c d || char_in c chars'
  end.

(** [s.rstrip(chars)]: drop the longest suffix made of characters of
    [chars]. *)
Fixpoint rstrip (s chars : string) : string :=
  match s with
  | EmptyString => EmptyString
  | String c s' =>
      match rstrip s' chars with
      | EmptyString => if char_in c chars then EmptyString else String c EmptyString
      | r => String c r
      end
  end.

(** [s.split(sep, maxsplit)] for a one-character separator, which is how
    the recipe calls it.  [maxsplit = None] is Python's [-1] (no limit);
    once the budget is used up the rest of the string is the last field. *)
Definition has_budget (maxsplit : option nat) : bool :=
  match maxsplit with
  | Some 0 => false
  | _ => true
  end.

Definition spend (maxsplit : option nat) : option nat := Nat.pred <$> maxsplit.

Fixpoint split (s : string) (sep : ascii) (maxsplit : option nat) : list string :=
  match s with
  | EmptyString => [EmptyString]
  | String c s' =>
      if Ascii.eqb c sep && has_budget maxsplit
      then EmptyString :: split s' sep (spend maxsplit)
      else match split s' sep maxsplit with
           | [] => [String c EmptyString]
           | field :: fields => String c field :: fields
           end
  end.

(** The [%] operator on a template and a tuple of arguments, for the
    conversions [%s] and [%%].  [None] stands for the [TypeError] (or
    [ValueError]) Python raises when the arguments and the conversions do
    not match, or on a conversion this model does not cover. *)
Fixpoint percent_format (template : string) (args : list PyVal) : option string :=
  match template with
  | EmptyString =>
      match args with
      | [] => Some EmptyString
      | _ :: _ => None
      end
  | String "%" (String "s" rest) =>
      match args with
      | [] => None
      | a :: args' => String.append (py_str a) <$> percent_format rest args'
      end
  | String "%" (String "%" rest) => String "%" <$> percent_format rest args
  | String "%" _ => None
  | String c rest => String c <$> percent_format rest args
  end.

(** [goos, goarch = fields]: unpacking into exactly two names. *)
Definition unpack2 (fields : list string) : option (string * string) :=
  match fields with
  | [a; b] => Some (a, b)
  | _ => None
  end.

(** [datetime.datetime]: a naive (zone-less) local date and time. *)
Record datetime := {
  year : nat;
  month : nat;
  day : nat;
  hour : nat;
  minute : nat;
  second : nat;
  microsecond : nat
}.

(** Decimal numeral of [n], left-padded with zeros to [width] ([%0<width>d]). *)
Definition zfill (width n : nat) : string :=
  let digits := pretty n in
  String.string_of_list_ascii (replicate (width - String.length digits) "0"%char) +:+ digits.

(** [d.isoformat(sep)]: [YYYY-MM-DD<sep>HH:MM:SS], followed by [.ffffff]
    when the microsecond is not zero. *)
Definition isoformat (d : datetime) (sep : ascii) : string :=
  zfill 4 (year d) +:+ "-" +:+ zfill 2 (month d) +:+ "-" +:+ zfill 2 (day d)
  +:+ String sep
       (zfill 2 (hour d) +:+ ":" +:+ zfill 2 (minute d) +:+ ":" +:+ zfill 2 (second d)
        +:+ (if Nat.eqb (microsecond d) 0 then "" else "." +:+ zfill 6 (microsecond d))).

(** The one-character string made of a double quote (code 34). *)
Definition dquote : string := String "034" EmptyString.

(** ** Paths, environments and collaborator calls *)

(** A recipe-engine path: a named base and the pieces joined to it. *)
Record Path := {
  path_base : string;
  path_pieces : list string
}.

Definition join (p : Path) (pieces : list string) : Path :=
  {| path_base := path_base p; path_pieces := (path_pieces p ++ pieces)%list |}.

(** [api.path['slave_build']]. *)
Definition slave_build : Path :=
  {| path_base := "slave_build"; path_pieces := [] |}.

(** A value of an environment dictionary: the recipe stores a path under
    [GOPATH] and strings under [GOOS] and [GOARCH]. *)
Inductive EnvVal :=
| EnvPath (p : Path)
| EnvStr (s : string).

(** An environment dictionary, and a step context (the dictionary given to
    [api.step.context], here always [{'env': ...}]). *)
Abbreviation Env := (gmap string EnvVal).
Abbreviation Context := (gmap string (gmap string EnvVal)).

(** The calls the recipe makes on its collaborators, with their arguments. *)
Inductive Call :=
| jiri_ensure_jiri
| jiri_set_config (name : string)
| jiri_clean_project
| jiri_import_manifest (manifest remote : string) (overwrite : bool)
| jiri_update (gc : bool)
| jiri_patch (ref : PyVal) (host : PyVal) (delete force : bool)
| go_install_go
| git_rev_parse (cwd : Path)
| go_build (packages : list string) (ldflags : string) (force : bool)
| go_test (packages : list string) (env : Env).

(** A call as it was made: the step context in force and the call. *)
Record Event := Ev {
  ev_context : Context;
  ev_call : Call
}.

(** The exceptions that end a run. *)
Inductive Exn :=
| AssertionError (msg : option string)
| AttributeError
| ValueError
| TypeError
| StepFailure (c : Call).

(** What the recipe cannot decide by itself: whether a collaborator step
    raises, what [git rev-parse] prints, and the time of day. *)
Record Api := {
  step_raises : Context → Call → bool;
  rev_parse_stdout : Path → string;
  now : datetime
}.

(** ** The recipe monad

    A computation reads the step context in force and yields the events it
    made, in order, with either the exception that stopped it or its
    value. *)
Definition M (A : Type) : Type := Context → list Event * (Exn + A).

#[global] Instance M_ret : MRet M := λ A a _, ([], inr a).

#[global] Instance M_bind : MBind M := λ A B f m ctx,
  match m ctx with
  | (t, inl e) => (t, inl e)
  | (t, inr a) => let '(t', r) := f a ctx in ((t ++ t')%list, r)
  end.

Definition raise {A} (e : Exn) : M A := λ _, ([], inl e).

(** [assert cond, msg]. *)
Definition py_assert (cond : bool) (msg : option string) : M unit :=
  if cond then mret () else raise (AssertionError msg).

(** A [str] method called on a value: [None] has no such attribute. *)
Definition str_method {A} (v : PyVal) (method : string → A) : M A :=
  match v with
  | PyStr s => mret (method s)
  | PyNone => raise AttributeError
  end.

(** [template % args]. *)
Definition format (template : string) (args : list PyVal) : M string :=
  match percent_format template args with
  | Some s => mret s
  | None => raise TypeError
  end.

(** [with api.step.context(change): body]: the keys of [change] override
    those of the context in force. *)
Definition with_context {A} (change : Context) (body : M A) : M A :=
  λ ctx, body (change ∪ ctx).

Section Recipe.
Context (api : Api).

(** A collaborator step with no result. *)
Definition step (c : Call) : M unit := λ ctx,
  ([Ev ctx c], if step_raises api ctx c then inl (StepFailure c) else inr ()).

(** [api.git.rev_parse(cwd=...)]: a step whose result is the commit hash. *)
Definition rev_parse (cwd : Path) : M string := λ ctx,
  ([Ev ctx (git_rev_parse cwd)],
   if step_raises api ctx (git_rev_parse cwd)
   then inl (StepFailure (git_rev_parse cwd))
   else inr (rev_parse_stdout api cwd)).

(** Lines 42-45: the effective repository URL and refspec. *)
Definition resolve_inputs
    (category repo_url refspec gerrit_host gerrit_project gerrit_patch_ref : PyVal)
    : M (PyVal * PyVal) :=
  if py_eq category (PyStr "cq") then
    secure ← str_method gerrit_host (λ s, startswith s "https://");
    py_assert secure None;;
    stripped ← str_method gerrit_host (λ s, rstrip s "/");
    repo_url ← format "%s/%s" [PyStr stripped; gerrit_project];
    mret (PyStr repo_url, gerrit_patch_ref)
  else mret (repo_url, refspec).

(** Lines 47-48: both must be given, and the URL must be an https one. *)
Definition check_inputs (repo_url refspec : PyVal) : M unit :=
  py_assert (truthy (py_and repo_url refspec))
            (Some "repository url and refspec must be given");;
  secure ← str_method repo_url (λ s, startswith s "https://");
  py_assert secure None.

(** Lines 50-57: the Jiri workspace. *)
Definition checkout
    (category gerrit_host gerrit_patch_ref : PyVal) (manifest remote : string)
    : M unit :=
  step jiri_ensure_jiri;;
  step (jiri_set_config "jiri");;
  step jiri_clean_project;;
  step (jiri_import_manifest manifest remote true);;
  step (jiri_update true);;
  if py_eq category (PyStr "cq")
  then step (jiri_patch gerrit_patch_ref gerrit_host true true)
  else mret ().

(** Line 66: the template of the linker flags. *)
Definition ldflags_template : string :=
  "-X " +:+ dquote +:+ "fuchsia.googlesource.com/jiri/version.GitCommit=%s" +:+ dquote
  +:+ " -X " +:+ dquote +:+ "fuchsia.googlesource.com/jiri/version.BuildTime=%s" +:+ dquote.

(** Lines 61-77: build and test [cmd/jiri]. *)
Definition build_and_test (target : string) : M unit :=
  let srcdir := join slave_build ["go"; "src"; "fuchsia.googlesource.com"; "jiri"] in
  git_commit ← rev_parse srcdir;
  let build_time := isoformat (now api) "T" in
  ldflags ← format ldflags_template [PyStr git_commit; PyStr build_time];
  let gopath := join slave_build ["go"] in
  '(goos, goarch) ← (match unpack2 (split target "-" (Some 2)) with
                      | Some p => mret p
                      | None => raise ValueError
                      end);
  with_context
    {["env" := {["GOPATH" := EnvPath gopath; "GOOS" := EnvStr goos;
                 "GOARCH" := EnvStr goarch]}]}
    (step (go_build ["fuchsia.googlesource.com/jiri/cmd/jiri"] ldflags true));;
  with_context
    {["env" := {["GOPATH" := EnvPath gopath]}]}
    (step (go_test ["fuchsia.googlesource.com/jiri/cmd/jiri"]
                   {["GOPATH" := EnvPath gopath]})).

(** [RunSteps], lines 40-77. *)
Definition RunSteps
    (category repo_url refspec gerrit_host gerrit_project gerrit_patch_ref : PyVal)
    (manifest remote target : string) : M unit :=
  '(repo_url, refspec) ← resolve_inputs category repo_url refspec
                            gerrit_host gerrit_project gerrit_patch_ref;
  check_inputs repo_url refspec;;
  checkout category gerrit_host gerrit_patch_ref manifest remote;;
  step go_install_go;;
  build_and_test target.

End Recipe.

(** The run of a recipe computation: it starts with no step context. *)
Definition run {A} (m : M A) : list Event * (Exn + A) := m ∅.

(** The inputs pass lines 42-48: resolution returns a pair and both
    assertions on it hold. *)
Definition inputs_accepted
    (category repo_url refspec gerrit_host gerrit_project gerrit_patch_ref : PyVal)
    : Prop :=
  ∃ url ref,
    run (resolve_inputs category repo_url refspec
           gerrit_host gerrit_project gerrit_patch_ref) = ([], inr (url, ref))
    ∧ run (check_inputs url ref) = ([], inr ()).

(** No collaborator step of the run raises. *)
Definition never_raises (api : Api) : Prop :=
  ∀ ctx c, step_raises api ctx c = false.

(** Collaborators that always succeed, with a given commit and clock. *)
Definition quiet_api (commit : string) (clock : datetime) : Api :=
  {| step_raises := λ _ _, false;
     rev_parse_stdout := λ _, commit;
     now := clock |}.

(** Sample collaborators: no step raises, [git rev-parse] prints a fixed
    hash, and the clock reads 4 July 2016, 09:05:03. *)
Definition sample_api : Api :=
  quiet_api "4f1d2c3"
    {| year := 2016; month := 7; day := 4; hour := 9; minute := 5; second := 3;
       microsecond := 0 |}.

(** The calls on [api.jiri]. *)
Definition is_jiri (c : Call) : bool :=
  match c with
  | jiri_ensure_jiri | jiri_set_config _ | jiri_clean_project
  | jiri_import_manifest _ _ _ | jiri_update _ | jiri_patch _ _ _ _ => true
  | go_install_go | git_rev_parse _ | go_build _ _ _ | go_test _ _ => false
  end.

(** [n] copies of the character [c]. *)
Fixpoint repeat_char (c : ascii) (n : nat) : string :=
  match n with
  | 0 => EmptyString
  | S n' => String c (repeat_char c n')
  end.

(** The number of [sep]-separated fields of [s]: [len(s.split(sep))]. *)
Definition field_count (s : string) (sep : ascii) : nat :=
  length (split s sep None).

(** The calls that run the Go tool on the package. *)
Definition is_go_run (c : Call) : bool :=
  match c with
  | go_build _ _ _ | go_test _ _ => true
  | _ => false
  end.

(** The [api.jiri] calls among the events of a run, and the events that
    run the Go tool. *)
Definition jiri_calls (t : list Event) : list Call :=
  List.filter is_jiri (ev_call <$> t).

Definition go_runs (t : list Event) : list Event :=
  List.filter (λ e, is_go_run (ev_call e)) t.

(** The checkout directory of Jiri's sources and the Go path. *)
Definition srcdir : Path :=
  join slave_build ["go"; "src"; "fuchsia.googlesource.com"; "jiri"].

Definition gopath : Path := join slave_build ["go"].

(** The events of lines 50-57 when every step returns. *)
Definition sync_events
    (category gerrit_host gerrit_patch_ref : PyVal) (manifest remote : string)
    : list Event :=
  Ev ∅ <$> ([jiri_ensure_jiri; jiri_set_config "jiri"; jiri_clean_project;
             jiri_import_manifest manifest remote true; jiri_update true]
            ++ if py_eq category (PyStr "cq")
               then [jiri_patch gerrit_patch_ref gerrit_host true true]
               else []).

(** The linker flags for a commit and a time stamp. *)
Definition ldflags_of (git_commit build_time : string) : string :=
  "-X " +:+ dquote +:+ "fuchsia.googlesource.com/jiri/version.GitCommit="
  +:+ git_commit +:+ dquote
  +:+ " -X " +:+ dquote +:+ "fuchsia.googlesource.com/jiri/version.BuildTime="
  +:+ build_time +:+ dquote.

(** The events of lines 59-63, then those of lines 70-77 for a parsed
    target, when every step returns. *)
Definition toolchain_events : list Event :=
  [Ev ∅ go_install_go; Ev ∅ (git_rev_parse srcdir)].

Definition build_events (api : Api) (goos goarch : string) : list Event :=
  [Ev {["env" := {["GOPATH" := EnvPath gopath; "GOOS" := EnvStr goos;
                   "GOARCH" := EnvStr goarch]}]}
      (go_build ["fuchsia.googlesource.com/jiri/cmd/jiri"]
         (ldflags_of (rev_parse_stdout api srcdir) (isoformat (now api) "T")) true);
   Ev {["env" := {["GOPATH" := EnvPath gopath]}]}
      (go_test ["fuchsia.googlesource.com/jiri/cmd/jiri"]
         {["GOPATH" := EnvPath gopath]})].

(** Making a list of calls one after the other, up to the first that
    raises: the shape of every run of the recipe past its assertions. *)
Fixpoint perform (api : Api) (events : list Event) : list Event * (Exn + unit) :=
  match events with
  | [] => ([], inr ())
  | e :: events' =>
      if step_raises api (ev_context e) (ev_call e)
      then ([e], inl (StepFailure (ev_call e)))
      else let '(t, r) := perform api events' in (e :: t, r)
  end.

(** The calls of a whole run when every step returns: the checkout, the
    toolchain and, when line 68 unpacks the target, the build and the
    test. *)
Definition pipeline
    (api : Api) (category gerrit_host gerrit_patch_ref : PyVal)
    (manifest remote target : string) : list Event :=
  sync_events category gerrit_host gerrit_patch_ref manifest remote
  ++ toolchain_events
  ++ match unpack2 (split target "-" (Some 2)) with
     | Some (goos, goarch) => build_events api goos goarch
     | None => []
     end.

(** The step of an event returns: the collaborator does not raise on it. *)
Definition returns (api : Api) (e : Event) : Prop :=
  step_raises api (ev_context e) (ev_call e) = false.


(** ** The definitions on sample inputs *)

Example rstrip_slashes : rstrip "https://host///" "/" = "https://host".
Proof. reflexivity. Qed.

Example rstrip_inner_slash_kept : rstrip "a/b/" "/" = "a/b".
Proof. reflexivity. Qed.

Example rstrip_bare_scheme : rstrip "https://" "/" = "https:".
Proof. reflexivity. Qed.

Example split_two_fields : split "linux-amd64" "-" (Some 2) = ["linux"; "amd64"].
Proof. reflexivity. Qed.

Example split_three_cuts : split "a-b-c-d" "-" (Some 2) = ["a"; "b"; "c-d"].
Proof. reflexivity. Qed.

Example split_one_field : split "linux" "-" (Some 2) = ["linux"].
Proof. reflexivity. Qed.

Example split_empty_fields : split "-a--" "-" None = [""; "a"; ""; ""].
Proof. reflexivity. Qed.

Example field_count_variant : field_count "linux-amd64-variant" "-" = 3.
Proof. reflexivity. Qed.

Example percent_format_none :
  percent_format "%s/%s" [PyStr "https://h"; PyNone] = Some "https://h/None".
Proof. reflexivity. Qed.

Example percent_format_too_few : percent_format "%s/%s" [PyStr "a"] = None.
Proof. reflexivity. Qed.

Example isoformat_seconds : isoformat (now sample_api) "T" = "2016-07-04T09:05:03".
Proof. reflexivity. Qed.

Example isoformat_microseconds :
  isoformat {| year := 987; month := 12; day := 31; hour := 23; minute := 59;
               second := 59; microsecond := 1234 |} " "
  = "0987-12-31 23:59:59.001234".
Proof. reflexivity. Qed.

(** A direct build of [master], with the values of the recipe's test
    [scheduler] as arguments. *)
Example scheduler_run :
  let '(t, r) :=
    run (RunSteps sample_api PyNone (PyStr "https://fuchsia.googlesource.com/jiri")
           (PyStr "master") PyNone PyNone PyNone
           "jiri" "https://fuchsia.googlesource.com/manifest" "linux-amd64") in
  ev_call <$> t
  = [jiri_ensure_jiri; jiri_set_config "jiri"; jiri_clean_project;
     jiri_import_manifest "jiri" "https://fuchsia.googlesource.com/manifest" true;
     jiri_update true; go_install_go; git_rev_parse srcdir;
     go_build ["fuchsia.googlesource.com/jiri/cmd/jiri"]
       (ldflags_of "4f1d2c3" "2016-07-04T09:05:03") true;
     go_test ["fuchsia.googlesource.com/jiri/cmd/jiri"] {["GOPATH" := EnvPath gopath]}]
  ∧ r = inr ().
Proof. by vm_compute. Qed.

(** A build for a Gerrit change, with the values of the recipe's test
    [cq_try] as arguments. *)
Example cq_try_run :
  let '(t, r) :=
    run (RunSteps sample_api (PyStr "cq") (PyStr "https://fuchsia.googlesource.com/jiri")
           (PyStr "master") (PyStr "https://fuchsia-review.googlesource.com")
           (PyStr "jiri") (PyStr "refs/changes/0/1/2")
           "jiri" "https://fuchsia.googlesource.com/manifest" "linux-amd64") in
  ev_call <$> t
  = [jiri_ensure_jiri; jiri_set_config "jiri"; jiri_clean_project;
     jiri_import_manifest "jiri" "https://fuchsia.googlesource.com/manifest" true;
     jiri_update true;
     jiri_patch (PyStr "refs/changes/0/1/2")
       (PyStr "https://fuchsia-review.googlesource.com") true true;
     go_install_go; git_rev_parse srcdir;
     go_build ["fuchsia.googlesource.com/jiri/cmd/jiri"]
       (ldflags_of "4f1d2c3" "2016-07-04T09:05:03") true;
     go_test ["fuchsia.googlesource.com/jiri/cmd/jiri"] {["GOPATH" := EnvPath gopath]}]
  ∧ r = inr ().
Proof. by vm_compute. Qed.

Example cq_try_resolution :
  run (resolve_inputs (PyStr "cq") (PyStr "https://fuchsia.googlesource.com/jiri")
         (PyStr "master") (PyStr "https://fuchsia-review.googlesource.com")
         (PyStr "jiri") (PyStr "refs/changes/0/1/2"))
  = ([], inr (PyStr "https://fuchsia-review.googlesource.com/jiri",
              PyStr "refs/changes/0/1/2")).
Proof. reflexivity. Qed.

(** A collaborator that raises ends the run there. *)
Example update_raises :
  let api := {| step_raises := λ _ c, match c with jiri_update _ => true | _ => false end;
                rev_parse_stdout := λ _, "4f1d2c3";
                now := now sample_api |} in
  run (RunSteps api PyNone (PyStr "https://fuchsia.googlesource.com/jiri")
         (PyStr "master") PyNone PyNone PyNone
         "jiri" "https://fuchsia.googlesource.com/manifest" "linux-amd64")
  = (Ev ∅ <$> [jiri_ensure_jiri; jiri_set_config "jiri"; jiri_clean_project;
               jiri_import_manifest "jiri" "https://fuchsia.googlesource.com/manifest" true;
               jiri_update true],
     inl (StepFailure (jiri_update true))).
Proof. by vm_compute. Qed.

(** ** Facts about the string methods *)

Section StringFacts.
Implicit Types (s p t chars : string) (c sep : ascii).

Lemma append_cons c s t : String c s +:+ t = String c (s +:+ t).
Proof. reflexivity. Qed.

Lemma append_empty_r s : s +:+ "" = s.
Proof. induction s as [|c s IH]; [done | by rewrite append_cons, IH]. Qed.

Lemma startswith_empty s : startswith s "" = true.
Proof. by destruct s. Qed.

Lemma startswith_append s t p :
  startswith s p = true → startswith (s +:+ t) p = true.
Proof.
  revert s. induction p as [|a p IH]; intros s; [intros _; apply startswith_empty |].
  destruct s as [|b s]; [done |].
  unfold startswith in *. rewrite append_cons. simpl.
  destruct (ascii_dec a b); [apply IH | done].
Qed.

(** [rstrip] returns a prefix of its argument: what starts the one starts
    the other. *)
Lemma startswith_rstrip s chars p :
  startswith (rstrip s chars) p = true → startswith s p = true.
Proof.
  unfold startswith. revert p.
  induction s as [|c s IH]; intros [|a p]; simpl; try done.
  destruct (rstrip s chars) as [|d r] eqn:Hr.
  - destruct (char_in c chars); simpl; [done |].
    destruct (ascii_dec a c); [| done].
    destruct p; [by destruct s | done].
  - simpl. destruct (ascii_dec a c); [apply IH | done].
Qed.

(** A suffix that [rstrip] removes whole does not change the result. *)
Lemma rstrip_append s t chars :
  rstrip t chars = "" → rstrip (s +:+ t) chars = rstrip s chars.
Proof.
  intros Ht. induction s as [|c s IH]; [done |].
  rewrite append_cons. simpl. by rewrite IH.
Qed.

Lemma rstrip_repeat_char c n chars :
  char_in c chars = true → rstrip (repeat_char c n) chars = "".
Proof.
  intros Hc. induction n as [|n IH]; simpl; [done | by rewrite IH, Hc].
Qed.

Lemma split_nonempty s sep m : split s sep m ≠ [].
Proof.
  revert m. induction s as [|c s IH]; intros m; simpl; [done |].
  destruct (Ascii.eqb c sep && has_budget m); [done |].
  specialize (IH m). by destruct (split s sep m).
Qed.

(** A string without the separator is a single field. *)
Lemma split_no_sep s sep m :
  char_in sep s = false → split s sep m = [s].
Proof.
  induction s as [|c s IH]; simpl; [done |].
  rewrite (Ascii.eqb_sym sep c).
  destruct (Ascii.eqb c sep); simpl; [done |].
  intros Hs. by rewrite IH.
Qed.

(** The first field ends at the first separator. *)
Lemma split_first_field s t sep n :
  char_in sep s = false →
  split (s +:+ String sep t) sep (Some (S n)) = s :: split t sep (Some n).
Proof.
  induction s as [|c s IH]; [change ("" +:+ ?x) with x | rewrite append_cons]; simpl.
  - by rewrite Ascii.eqb_refl.
  - rewrite (Ascii.eqb_sym sep c).
    destruct (Ascii.eqb c sep); simpl; [done |].
    intros Hs. by rewrite IH.
Qed.

Lemma split_exhausted s sep : split s sep (Some 0) = [s].
Proof.
  induction s as [|c s IH]; simpl; [done |].
  by rewrite andb_false_r, IH.
Qed.

(** A split limited to [n] cuts has at most [n + 1] fields, and otherwise
    as many as the unlimited one. *)
Lemma length_split_limited s sep n :
  length (split s sep (Some n)) = field_count s sep `min` S n.
Proof.
  unfold field_count. revert n.
  induction s as [|c s IH]; intros n; simpl; [done |].
  destruct (Ascii.eqb c sep); simpl.
  - destruct n as [|n]; simpl.
    + rewrite split_exhausted. simpl. lia.
    + by rewrite IH.
  - specialize (IH n).
    pose proof (split_nonempty s sep (Some n)).
    pose proof (split_nonempty s sep None).
    destruct (split s sep (Some n)), (split s sep None); done.
Qed.

Lemma unpack2_None fields : unpack2 fields = None ↔ length fields ≠ 2.
Proof.
  destruct fields as [|x [|y [|z l]]]; simpl; split; intros; try done; lia.
Qed.

(** Line 68 fails exactly when the target has not two fields. *)
Lemma unpack2_split_None s sep :
  unpack2 (split s sep (Some 2)) = None ↔ field_count s sep ≠ 2.
Proof. rewrite unpack2_None, length_split_limited. lia. Qed.

(** Line 68 on [os-arch]. *)
Lemma unpack2_split_pair s t sep :
  char_in sep s = false → char_in sep t = false →
  unpack2 (split (s +:+ String sep t) sep (Some 2)) = Some (s, t).
Proof.
  intros Hs Ht. by rewrite split_first_field, (split_no_sep t).
Qed.

End StringFacts.

(** ** Facts about the recipe monad *)

Section MonadFacts.
Context {A B : Type}.
Implicit Types (m : M A) (f : A → M B) (ctx : Context).

Lemma bind_eq m f ctx :
  (m ≫= f) ctx
  = match m ctx with
    | (t, inl e) => (t, inl e)
    | (t, inr a) => ((t ++ (f a ctx).1)%list, (f a ctx).2)
    end.
Proof.
  unfold mbind, M_bind. destruct (m ctx) as [t [e|a]]; [done |].
  by destruct (f a ctx).
Qed.

(** A computation that returns without an event hands over to the
    continuation. *)
Lemma bind_silent m f ctx a :
  m ctx = ([], inr a) → (m ≫= f) ctx = f a ctx.
Proof. intros Hm. rewrite bind_eq, Hm. simpl. by destruct (f a ctx). Qed.

(** An exception skips the continuation. *)
Lemma bind_raised m f ctx t e :
  m ctx = (t, inl e) → (m ≫= f) ctx = (t, inl e).
Proof. intros Hm. by rewrite bind_eq, Hm. Qed.

End MonadFacts.

(** ** Input resolution and validation (lines 42-48) *)

Section Inputs.
Implicit Types
  (category repo_url refspec gerrit_host gerrit_project gerrit_patch_ref : PyVal)
  (url ref : PyVal) (ctx : Context).

Lemma py_eq_not_cq category :
  py_eq category (PyStr "cq") = false ↔ category ≠ PyStr "cq".
Proof. unfold py_eq. by rewrite bool_decide_eq_false. Qed.

(** The review branch on every input: it needs a host, and an https one. *)
Lemma resolve_inputs_cq repo_url refspec gerrit_host gerrit_project gerrit_patch_ref ctx :
  resolve_inputs (PyStr "cq") repo_url refspec gerrit_host gerrit_project
    gerrit_patch_ref ctx
  = ([], match gerrit_host with
         | PyNone => inl AttributeError
         | PyStr h =>
             if startswith h "https://"
             then inr (PyStr (rstrip h "/" +:+ "/" +:+ py_str gerrit_project),
                       gerrit_patch_ref)
             else inl (AssertionError None)
         end).
Proof.
  unfold resolve_inputs. simpl.
  destruct gerrit_host as [|h]; [done |].
  unfold mbind, M_bind, str_method, format. simpl.
  destruct (startswith h "https://"); [| done]. simpl.
  by rewrite append_empty_r.
Qed.

Lemma resolve_inputs_direct
    category repo_url refspec gerrit_host gerrit_project gerrit_patch_ref ctx :
  category ≠ PyStr "cq" →
  resolve_inputs category repo_url refspec gerrit_host gerrit_project
    gerrit_patch_ref ctx
  = ([], inr (repo_url, refspec)).
Proof.
  intros Hc%py_eq_not_cq. unfold resolve_inputs. by rewrite Hc.
Qed.

(** Resolution makes no collaborator call. *)
Lemma resolve_inputs_silent
    category repo_url refspec gerrit_host gerrit_project gerrit_patch_ref ctx :
  (resolve_inputs category repo_url refspec gerrit_host gerrit_project
     gerrit_patch_ref ctx).1 = [].
Proof.
  destruct (decide (category = PyStr "cq")) as [->|Hc].
  - by rewrite resolve_inputs_cq.
  - by rewrite resolve_inputs_direct.
Qed.

(** The two assertions of lines 47-48 on every pair. *)
Lemma check_inputs_eq url ref ctx :
  check_inputs url ref ctx
  = ([], if truthy url && truthy ref
         then match url with
              | PyStr s =>
                  if startswith s "https://" then inr () else inl (AssertionError None)
              | PyNone => inl AttributeError
              end
         else inl (AssertionError (Some "repository url and refspec must be given"))).
Proof.
  unfold check_inputs, py_and.
  destruct (truthy url) eqn:Hu; simpl.
  - destruct (truthy ref); [| done].
    destruct url as [|s]; [done |].
    unfold mbind, M_bind. simpl.
    by destruct (startswith s "https://").
  - unfold mbind, M_bind. simpl. by rewrite Hu.
Qed.

Lemma check_inputs_silent url ref ctx : (check_inputs url ref ctx).1 = [].
Proof. by rewrite check_inputs_eq. Qed.

Lemma check_inputs_passes url ref ctx :
  check_inputs url ref ctx = ([], inr ())
  ↔ truthy ref = true ∧ ∃ s, url = PyStr s ∧ s ≠ "" ∧ startswith s "https://" = true.
Proof.
  rewrite check_inputs_eq. split.
  - destruct url as [|s]; simpl; [done |].
    destruct (String.eqb_spec s ""); simpl; [done |].
    destruct (truthy ref); [| done].
    destruct (startswith s "https://") eqn:Hs; [| done].
    intros _. split; [done |]. by exists s.
  - intros [-> (s & -> & Hne & ->)]. simpl.
    by destruct (String.eqb_spec s "").
Qed.

(** Whatever is wrong with the pair, the check ends in an
    [AssertionError]. *)
Lemma check_inputs_fails url ref ctx :
  truthy url = false ∨ truthy ref = false
  ∨ (∃ s, url = PyStr s ∧ startswith s "https://" = false) →
  ∃ msg, check_inputs url ref ctx = ([], inl (AssertionError msg)).
Proof.
  rewrite check_inputs_eq. intros [Hu|[Hr|(s & -> & Hs)]].
  - rewrite Hu. simpl. eauto.
  - rewrite Hr, andb_false_r. eauto.
  - rewrite Hs. destruct (truthy (PyStr s) && truthy ref); eauto.
Qed.

End Inputs.

(** ** The calls of a run (lines 50-77) *)

Section Trace.
Context (api : Api).
Implicit Types (events t : list Event).

Lemma perform_prefix events : (perform api events).1 `prefix_of` events.
Proof.
  induction events as [|e events IH]; simpl; [done |].
  destruct (step_raises api (ev_context e) (ev_call e)).
  - by exists events.
  - destruct (perform api events) as [t r]. by apply prefix_cons.
Qed.

(** A run of the list that returns has made every call of it. *)
Lemma perform_returned events :
  (perform api events).2 = inr () → (perform api events).1 = events.
Proof.
  induction events as [|e events IH]; simpl; [done |].
  destruct (step_raises api (ev_context e) (ev_call e)); [done |].
  destruct (perform api events) as [t r]. simpl in *. intros Hr. by rewrite IH.
Qed.

Lemma perform_quiet events :
  Forall (λ e, step_raises api (ev_context e) (ev_call e) = false) events →
  perform api events = (events, inr ()).
Proof.
  induction 1 as [|e events He _ IH]; simpl; [done |]. by rewrite He, IH.
Qed.

Lemma perform_never_raises events :
  never_raises api → perform api events = (events, inr ()).
Proof.
  intros Hq. apply perform_quiet, Forall_forall. intros e _. apply Hq.
Qed.

Lemma perform_app events1 events2 :
  perform api (events1 ++ events2)
  = match perform api events1 with
    | (t, inl e) => (t, inl e)
    | (t, inr _) => (t ++ (perform api events2).1, (perform api events2).2)
    end.
Proof.
  induction events1 as [|e events1 IH]; simpl.
  - by destruct (perform api events2).
  - destruct (step_raises api (ev_context e) (ev_call e)); [done |].
    rewrite IH. by destruct (perform api events1) as [t [x|[]]].
Qed.

Lemma format_ldflags git_commit build_time ctx :
  format ldflags_template [PyStr git_commit; PyStr build_time] ctx
  = ([], inr (ldflags_of git_commit build_time)).
Proof. reflexivity. Qed.

Local Opaque format.
Local Arguments union : simpl never.
Local Arguments split : simpl never.

Local Ltac step_through :=
  repeat (first [ rewrite format_ldflags; simpl
                | match goal with
                  | |- context [step_raises api ?c ?x] =>
                      destruct (step_raises api c x) eqn:?; simpl; try done
                  end ]).

(** Lines 50-77 with a target of two fields: the calls are made one
    after the other, whatever the collaborators do. *)
Lemma post_validation_perform
    category gerrit_host gerrit_patch_ref manifest remote target goos goarch :
  unpack2 (split target "-" (Some 2)) = Some (goos, goarch) →
  (checkout api category gerrit_host gerrit_patch_ref manifest remote;;
   step api go_install_go;;
   build_and_test api target) ∅
  = perform api (sync_events category gerrit_host gerrit_patch_ref manifest remote
                 ++ toolchain_events ++ build_events api goos goarch).
Proof.
  intros Ht.
  unfold checkout, build_and_test, sync_events, toolchain_events, build_events.
  unfold mbind, M_bind, step, rev_parse, with_context.
  rewrite Ht. unfold srcdir, gopath.
  destruct (py_eq category (PyStr "cq")); simpl;
    rewrite ?(right_id_L ∅ (∪)); step_through.
Qed.

(** Lines 50-77 with any other target: line 68 raises once the calls
    before it have returned. *)
Lemma post_validation_bad_target
    category gerrit_host gerrit_patch_ref manifest remote target :
  unpack2 (split target "-" (Some 2)) = None →
  (checkout api category gerrit_host gerrit_patch_ref manifest remote;;
   step api go_install_go;;
   build_and_test api target) ∅
  = match perform api (sync_events category gerrit_host gerrit_patch_ref manifest remote
                       ++ toolchain_events) with
    | (t, inl e) => (t, inl e)
    | (t, inr _) => (t, inl ValueError)
    end.
Proof.
  intros Ht.
  unfold checkout, build_and_test, sync_events, toolchain_events.
  unfold mbind, M_bind, step, rev_parse, with_context.
  rewrite Ht. unfold srcdir.
  destruct (py_eq category (PyStr "cq")); simpl; step_through.
Qed.

End Trace.

(** ** Whole runs *)

Section Run.
Context (api : Api).
Implicit Types
  (category repo_url refspec gerrit_host gerrit_project gerrit_patch_ref : PyVal)
  (manifest remote target : string).

(** Past the assertions, a run is the checkout, the toolchain and the
    build. *)
Lemma RunSteps_accepted
    category repo_url refspec gerrit_host gerrit_project gerrit_patch_ref
    manifest remote target :
  inputs_accepted category repo_url refspec gerrit_host gerrit_project gerrit_patch_ref →
  run (RunSteps api category repo_url refspec gerrit_host gerrit_project
         gerrit_patch_ref manifest remote target)
  = (checkout api category gerrit_host gerrit_patch_ref manifest remote;;
     step api go_install_go;;
     build_and_test api target) ∅.
Proof.
  intros (url & ref & Hres & Hchk). unfold run, RunSteps in *.
  rewrite (bind_silent _ _ _ _ Hres). simpl.
  by rewrite (bind_silent _ _ _ _ Hchk).
Qed.

(** An exception of lines 42-48 ends the run with no call made. *)
Lemma RunSteps_unresolved
    category repo_url refspec gerrit_host gerrit_project gerrit_patch_ref
    manifest remote target e :
  run (resolve_inputs category repo_url refspec gerrit_host gerrit_project
         gerrit_patch_ref) = ([], inl e) →
  run (RunSteps api category repo_url refspec gerrit_host gerrit_project
         gerrit_patch_ref manifest remote target) = ([], inl e).
Proof. intros Hres. unfold run, RunSteps in *. by rewrite (bind_raised _ _ _ _ _ Hres). Qed.

Lemma RunSteps_unchecked
    category repo_url refspec gerrit_host gerrit_project gerrit_patch_ref
    manifest remote target url ref e :
  run (resolve_inputs category repo_url refspec gerrit_host gerrit_project
         gerrit_patch_ref) = ([], inr (url, ref)) →
  run (check_inputs url ref) = ([], inl e) →
  run (RunSteps api category repo_url refspec gerrit_host gerrit_project
         gerrit_patch_ref manifest remote target) = ([], inl e).
Proof.
  intros Hres Hchk. unfold run, RunSteps in *.
  rewrite (bind_silent _ _ _ _ Hres). simpl.
  by rewrite (bind_raised _ _ _ _ _ Hchk).
Qed.

Lemma RunSteps_cases
    category repo_url refspec gerrit_host gerrit_project gerrit_patch_ref
    manifest remote target :
  inputs_accepted category repo_url refspec gerrit_host gerrit_project gerrit_patch_ref
  ∨ ∃ e, run (RunSteps api category repo_url refspec gerrit_host gerrit_project
                gerrit_patch_ref manifest remote target) = ([], inl e).
Proof.
  pose proof (resolve_inputs_silent category repo_url refspec gerrit_host
                gerrit_project gerrit_patch_ref ∅) as Hsil.
  destruct (resolve_inputs category repo_url refspec gerrit_host gerrit_project
              gerrit_patch_ref ∅) as [t [e|[url ref]]] eqn:Hres;
    simpl in Hsil; subst t.
  - right. exists e. by apply RunSteps_unresolved.
  - pose proof (check_inputs_silent url ref ∅) as Hsil.
    destruct (check_inputs url ref ∅) as [t [e|[]]] eqn:Hchk;
      simpl in Hsil; subst t.
    + right. exists e. by eapply RunSteps_unchecked.
    + left. by exists url, ref.
Qed.

(** The calls of a run are the first ones of the full list. *)
Lemma RunSteps_trace_prefix
    category repo_url refspec gerrit_host gerrit_project gerrit_patch_ref
    manifest remote target goos goarch :
  unpack2 (split target "-" (Some 2)) = Some (goos, goarch) →
  (run (RunSteps api category repo_url refspec gerrit_host gerrit_project
          gerrit_patch_ref manifest remote target)).1
  `prefix_of` sync_events category gerrit_host gerrit_patch_ref manifest remote
              ++ toolchain_events ++ build_events api goos goarch.
Proof.
  intros Ht.
  destruct (RunSteps_cases category repo_url refspec gerrit_host gerrit_project
              gerrit_patch_ref manifest remote target) as [Hok|[e ->]].
  - rewrite RunSteps_accepted, (post_validation_perform _ _ _ _ _ _ _ goos goarch) by done.
    apply perform_prefix.
  - apply prefix_nil.
Qed.

(** With collaborators that never raise and a target of two fields, the
    run makes every call and returns. *)
Lemma RunSteps_complete
    category repo_url refspec gerrit_host gerrit_project gerrit_patch_ref
    manifest remote target goos goarch :
  inputs_accepted category repo_url refspec gerrit_host gerrit_project gerrit_patch_ref →
  never_raises api →
  unpack2 (split target "-" (Some 2)) = Some (goos, goarch) →
  run (RunSteps api category repo_url refspec gerrit_host gerrit_project
         gerrit_patch_ref manifest remote target)
  = (sync_events category gerrit_host gerrit_patch_ref manifest remote
     ++ toolchain_events ++ build_events api goos goarch, inr ()).
Proof.
  intros Hok Hq Ht.
  rewrite RunSteps_accepted, (post_validation_perform _ _ _ _ _ _ _ goos goarch) by done.
  by apply perform_never_raises.
Qed.

(** With collaborators that never raise and any other target, the run
    stops at line 68. *)
Lemma RunSteps_bad_target
    category repo_url refspec gerrit_host gerrit_project gerrit_patch_ref
    manifest remote target :
  inputs_accepted category repo_url refspec gerrit_host gerrit_project gerrit_patch_ref →
  never_raises api →
  unpack2 (split target "-" (Some 2)) = None →
  run (RunSteps api category repo_url refspec gerrit_host gerrit_project
         gerrit_patch_ref manifest remote target)
  = (sync_events category gerrit_host gerrit_patch_ref manifest remote
     ++ toolchain_events, inl ValueError).
Proof.
  intros Hok Hq Ht.
  rewrite RunSteps_accepted, post_validation_bad_target by done.
  by rewrite perform_never_raises.
Qed.

End Run.

(** ** Lists of calls *)

Section Calls.
Context {A : Type}.
Implicit Types (f : A → bool) (l k : list A).

Lemma filter_prefix f l k : l `prefix_of` k → List.filter f l `prefix_of` List.filter f k.
Proof. intros [k' ->]. rewrite List.filter_app. by eexists. Qed.

End Calls.

Section JiriCalls.
Context (api : Api).
Implicit Types (category gerrit_host gerrit_patch_ref : PyVal) (manifest remote : string).

Lemma jiri_calls_app t1 t2 : jiri_calls (t1 ++ t2) = jiri_calls t1 ++ jiri_calls t2.
Proof. unfold jiri_calls. by rewrite fmap_app, List.filter_app. Qed.

Lemma jiri_calls_prefix t1 t2 : t1 `prefix_of` t2 → jiri_calls t1 `prefix_of` jiri_calls t2.
Proof. intros [k ->]. rewrite jiri_calls_app. by eexists. Qed.

Lemma jiri_calls_sync category gerrit_host gerrit_patch_ref manifest remote :
  jiri_calls (sync_events category gerrit_host gerrit_patch_ref manifest remote)
  = [jiri_ensure_jiri; jiri_set_config "jiri"; jiri_clean_project;
     jiri_import_manifest manifest remote true; jiri_update true]
    ++ (if py_eq category (PyStr "cq")
        then [jiri_patch gerrit_patch_ref gerrit_host true true]
        else []).
Proof. unfold sync_events. by destruct (py_eq category (PyStr "cq")). Qed.

Lemma sync_events_quiet category gerrit_host gerrit_patch_ref manifest remote :
  (∀ c, is_jiri c = true → step_raises api ∅ c = false) →
  Forall (λ e, step_raises api (ev_context e) (ev_call e) = false)
         (sync_events category gerrit_host gerrit_patch_ref manifest remote).
Proof.
  intros Hq. unfold sync_events.
  destruct (py_eq category (PyStr "cq")); repeat constructor; by apply Hq.
Qed.

(** Whatever follows a list of calls and has no [api.jiri] call in it,
    the [api.jiri] calls made are the first ones of the list, and all of
    them when none raises. *)
Lemma jiri_calls_of_perform (sync rest : list Event) :
  jiri_calls rest = [] →
  jiri_calls (perform api (sync ++ rest)).1 `prefix_of` jiri_calls sync
  ∧ (Forall (λ e, step_raises api (ev_context e) (ev_call e) = false) sync →
     jiri_calls (perform api (sync ++ rest)).1 = jiri_calls sync).
Proof.
  intros Hrest. split.
  - replace (jiri_calls sync) with (jiri_calls (sync ++ rest))
      by (by rewrite jiri_calls_app, Hrest, app_nil_r).
    apply jiri_calls_prefix, perform_prefix.
  - intros Hq. rewrite perform_app, (perform_quiet api sync Hq).
    cbn [fst]. rewrite jiri_calls_app.
    pose proof (jiri_calls_prefix _ _ (perform_prefix api rest)) as Hp.
    rewrite Hrest in Hp. apply prefix_nil_inv in Hp. by rewrite Hp, app_nil_r.
Qed.

End JiriCalls.

(** A run whose inputs are accepted starts with the first Jiri call. *)
Lemma accepted_run_starts
    (api : Api)
    (category repo_url refspec gerrit_host gerrit_project gerrit_patch_ref : PyVal)
    (manifest remote target : string) :
  inputs_accepted category repo_url refspec gerrit_host gerrit_project gerrit_patch_ref →
  ∃ rest,
    (run (RunSteps api category repo_url refspec gerrit_host gerrit_project
            gerrit_patch_ref manifest remote target)).1
    = Ev ∅ jiri_ensure_jiri :: rest.
Proof.
  intros Hok. rewrite RunSteps_accepted by done.
  unfold checkout. rewrite bind_eq, (bind_eq (step api jiri_ensure_jiri)).
  unfold step at 1. destruct (step_raises api ∅ jiri_ensure_jiri); simpl.
  - by eexists.
  - repeat case_match; by eexists.
Qed.

Section GoRuns.
Context (api : Api).

Lemma go_runs_full category gerrit_host gerrit_patch_ref manifest remote goos goarch :
  go_runs (sync_events category gerrit_host gerrit_patch_ref manifest remote
           ++ toolchain_events ++ build_events api goos goarch)
  = build_events api goos goarch.
Proof. unfold sync_events. by destruct (py_eq category (PyStr "cq")). Qed.

(** A target of two fields is one that line 68 unpacks. *)
Lemma two_fields_unpack target :
  field_count target "-" = 2 →
  ∃ goos goarch, unpack2 (split target "-" (Some 2)) = Some (goos, goarch).
Proof.
  intros Hn. destruct (unpack2 (split target "-" (Some 2))) as [[goos goarch]|] eqn:Hu.
  - by exists goos, goarch.
  - by apply unpack2_split_None in Hu.
Qed.

End GoRuns.

(** The template of line 66 has exactly two conversions. *)
Lemma ldflags_template_two_conversions (args : list PyVal) :
  is_Some (percent_format ldflags_template args) ↔ length args = 2.
Proof.
  destruct args as [|a [|b [|c args]]]; split; try done;
    intros [s Hs]; by vm_compute in Hs.
Qed.

(** ** The recipe's properties *)

(** C1: with category [cq], resolution yields the Gerrit host stripped of
    its trailing slashes, a slash and the Gerrit project as the repository
    URL, and the Gerrit patch ref as the refspec, whatever [repo_url] and
    [refspec] were supplied.  Line 43 guards the branch: it is left with
    an exception, and no resolved pair, when the host is missing or is not
    an https one. *)
Theorem cq_resolves_from_gerrit
    (repo_url refspec gerrit_host gerrit_project gerrit_patch_ref : PyVal) :
  run (resolve_inputs (PyStr "cq") repo_url refspec
         gerrit_host gerrit_project gerrit_patch_ref)
  = ([], match gerrit_host with
         | PyStr host =>
             if startswith host "https://"
             then inr (PyStr (rstrip host "/" +:+ "/" +:+ py_str gerrit_project),
                       gerrit_patch_ref)
             else inl (AssertionError None)
         | PyNone => inl AttributeError
         end).
Proof. unfold run. rewrite resolve_inputs_cq. by destruct gerrit_host. Qed.

(** C5: with any category other than [cq], resolution returns the supplied
    [repo_url] and [refspec] unchanged. *)
Theorem direct_inputs_pass_through
    (category repo_url refspec gerrit_host gerrit_project gerrit_patch_ref : PyVal) :
  category ≠ PyStr "cq" →
  run (resolve_inputs category repo_url refspec
         gerrit_host gerrit_project gerrit_patch_ref)
  = ([], inr (repo_url, refspec)).
Proof. intros Hc. by apply resolve_inputs_direct. Qed.

Lemma direct_inputs_pass_through_witness :
  run (resolve_inputs PyNone (PyStr "https://fuchsia.googlesource.com/jiri")
         (PyStr "master") PyNone PyNone PyNone)
  = ([], inr (PyStr "https://fuchsia.googlesource.com/jiri", PyStr "master")).
Proof. apply direct_inputs_pass_through. discriminate. Defined.

(** C2: when the resolved repository URL is empty or [None], or the
    resolved refspec is empty or [None], or the resolved URL does not start
    with [https://], the run ends in an [AssertionError] with no
    collaborator call made. *)
Theorem rejected_inputs_make_no_call
    (api : Api)
    (category repo_url refspec gerrit_host gerrit_project gerrit_patch_ref : PyVal)
    (manifest remote target : string) (url ref : PyVal) :
  run (resolve_inputs category repo_url refspec
         gerrit_host gerrit_project gerrit_patch_ref) = ([], inr (url, ref)) →
  truthy url = false ∨ truthy ref = false
  ∨ (∃ s, url = PyStr s ∧ startswith s "https://" = false) →
  ∃ msg,
    run (RunSteps api category repo_url refspec gerrit_host gerrit_project
           gerrit_patch_ref manifest remote target)
    = ([], inl (AssertionError msg)).
Proof.
  intros Hres Hbad.
  destruct (check_inputs_fails url ref ∅ Hbad) as [msg Hchk].
  exists msg. by eapply RunSteps_unchecked.
Qed.

Lemma rejected_inputs_make_no_call_witness :
  ∃ msg,
    run (RunSteps
           sample_api
           PyNone (PyStr "http://fuchsia.googlesource.com/jiri") (PyStr "master")
           PyNone PyNone PyNone
           "jiri" "https://fuchsia.googlesource.com/manifest" "linux-amd64")
    = ([], inl (AssertionError msg)).
Proof.
  apply (rejected_inputs_make_no_call _ _ _ _ _ _ _ _ _ _
           (PyStr "http://fuchsia.googlesource.com/jiri") (PyStr "master")).
  - reflexivity.
  - right. right. eexists. split; reflexivity.
Defined.

(** C10 (as amended): with category [cq] and a Gerrit host that starts
    with [https://], slashes appended to the host change nothing:
    resolution returns for the host and for the host followed by any
    number of slashes, with the same repository URL, the stripped host, a
    slash and the project, and the same refspec. *)
Theorem trailing_slashes_are_immaterial
    (host : string) (n : nat)
    (repo_url refspec gerrit_project gerrit_patch_ref : PyVal) :
  startswith host "https://" = true →
  let url := PyStr (rstrip host "/" +:+ "/" +:+ py_str gerrit_project) in
  run (resolve_inputs (PyStr "cq") repo_url refspec
         (PyStr (host +:+ repeat_char "/" n)) gerrit_project gerrit_patch_ref)
  = ([], inr (url, gerrit_patch_ref))
  ∧ run (resolve_inputs (PyStr "cq") repo_url refspec
           (PyStr host) gerrit_project gerrit_patch_ref)
    = ([], inr (url, gerrit_patch_ref)).
Proof.
  intros Hs url.
  assert (rstrip (host +:+ repeat_char "/" n) "/" = rstrip host "/") as Hstrip
    by by apply rstrip_append, rstrip_repeat_char.
  unfold run. rewrite !resolve_inputs_cq.
  by rewrite (startswith_append _ _ _ Hs), Hs, Hstrip.
Qed.

Lemma trailing_slashes_are_immaterial_witness :
  let url := PyStr "https://fuchsia-review.googlesource.com/jiri" in
  run (resolve_inputs (PyStr "cq") PyNone (PyStr "master")
         (PyStr ("https://fuchsia-review.googlesource.com" +:+ repeat_char "/" 3))
         (PyStr "jiri") (PyStr "refs/changes/0/1/2"))
  = ([], inr (url, PyStr "refs/changes/0/1/2"))
  ∧ run (resolve_inputs (PyStr "cq") PyNone (PyStr "master")
           (PyStr "https://fuchsia-review.googlesource.com")
           (PyStr "jiri") (PyStr "refs/changes/0/1/2"))
    = ([], inr (url, PyStr "refs/changes/0/1/2")).
Proof.
  intros url.
  apply (trailing_slashes_are_immaterial "https://fuchsia-review.googlesource.com" 3).
  reflexivity.
Defined.

(** C10 (as stated) fails: with category [cq] and the host [https:/], the
    assertion of line 43 raises and nothing is resolved, while the same
    host followed by one slash passes it and resolves to a URL; with the
    project [/x] that URL is an https one, so that the second run goes
    through its ten calls where the first makes none. *)
Lemma trailing_slashes_counterexample :
  let with_host host :=
    run (resolve_inputs (PyStr "cq") PyNone (PyStr "master")
           (PyStr host) (PyStr "/x") (PyStr "refs/changes/0/1/2")) in
  let run_with host :=
    run (RunSteps sample_api (PyStr "cq") PyNone (PyStr "master")
           (PyStr host) (PyStr "/x") (PyStr "refs/changes/0/1/2")
           "jiri" "https://fuchsia.googlesource.com/manifest" "linux-amd64") in
  with_host "https:/" = ([], inl (AssertionError None))
  ∧ with_host ("https:/" +:+ repeat_char "/" 1)
    = ([], inr (PyStr "https://x", PyStr "refs/changes/0/1/2"))
  ∧ with_host ("https:/" +:+ repeat_char "/" 1) ≠ with_host "https:/"
  ∧ run_with "https:/" = ([], inl (AssertionError None))
  ∧ length (run_with ("https:/" +:+ repeat_char "/" 1)).1 = 10
  ∧ (run_with ("https:/" +:+ repeat_char "/" 1)).2 = inr ().
Proof. by vm_compute. Qed.

(** C8 (as amended): the Gerrit project is not checked.  With category
    [cq], a project that is [None] or empty, a host that still starts with
    [https://] once its trailing slashes are stripped and a patch ref that
    is not empty, the resolved URL is the stripped host followed by
    [/None], respectively [/]; both assertions of lines 47-48 hold of it;
    and the run goes on to its first collaborator call. *)
Theorem unvalidated_project_is_accepted
    (api : Api) (host : string)
    (repo_url refspec gerrit_project gerrit_patch_ref : PyVal)
    (manifest remote target : string) :
  gerrit_project = PyNone ∨ gerrit_project = PyStr "" →
  startswith (rstrip host "/") "https://" = true →
  truthy gerrit_patch_ref = true →
  let url :=
    PyStr (rstrip host "/" +:+ (if decide (gerrit_project = PyNone) then "/None" else "/")) in
  run (resolve_inputs (PyStr "cq") repo_url refspec
         (PyStr host) gerrit_project gerrit_patch_ref)
  = ([], inr (url, gerrit_patch_ref))
  ∧ run (check_inputs url gerrit_patch_ref) = ([], inr ())
  ∧ ∃ rest,
      (run (RunSteps api (PyStr "cq") repo_url refspec (PyStr host) gerrit_project
              gerrit_patch_ref manifest remote target)).1
      = Ev ∅ jiri_ensure_jiri :: rest.
Proof.
  intros Hproject Hhost Href url.
  assert (run (resolve_inputs (PyStr "cq") repo_url refspec
                 (PyStr host) gerrit_project gerrit_patch_ref)
          = ([], inr (url, gerrit_patch_ref))) as Hres.
  { unfold run. rewrite resolve_inputs_cq, (startswith_rstrip _ _ _ Hhost).
    unfold url. destruct Hproject as [-> | ->]; simpl; [done |].
    by rewrite append_empty_r. }
  assert (run (check_inputs url gerrit_patch_ref) = ([], inr ())) as Hchk.
  { apply check_inputs_passes. split; [done |]. eexists. split; [done |]. split.
    - destruct (rstrip host "/"); [done | discriminate].
    - by apply startswith_append. }
  split; [done |]. split; [done |].
  apply accepted_run_starts. by exists url, gerrit_patch_ref.
Qed.

Lemma unvalidated_project_is_accepted_witness :
  let api := sample_api in
  let url := PyStr "https://fuchsia-review.googlesource.com/None" in
  run (resolve_inputs (PyStr "cq") PyNone (PyStr "master")
         (PyStr "https://fuchsia-review.googlesource.com/") PyNone
         (PyStr "refs/changes/0/1/2"))
  = ([], inr (url, PyStr "refs/changes/0/1/2"))
  ∧ run (check_inputs url (PyStr "refs/changes/0/1/2")) = ([], inr ())
  ∧ ∃ rest,
      (run (RunSteps api (PyStr "cq") PyNone (PyStr "master")
              (PyStr "https://fuchsia-review.googlesource.com/") PyNone
              (PyStr "refs/changes/0/1/2")
              "jiri" "https://fuchsia.googlesource.com/manifest" "linux-amd64")).1
      = Ev ∅ jiri_ensure_jiri :: rest.
Proof.
  intros api url.
  apply (unvalidated_project_is_accepted api "https://fuchsia-review.googlesource.com/").
  - by left.
  - reflexivity.
  - reflexivity.
Defined.

(** C8 (as stated) fails: with category [cq], the host
    [https://fuchsia-review.googlesource.com], no project and no patch
    ref, the URL resolves to the host followed by [/None], but the
    assertion of line 47 fails on the refspec and the run ends before any
    collaborator call. *)
Lemma unvalidated_project_counterexample :
  let api := sample_api in
  startswith "https://fuchsia-review.googlesource.com" "https://" = true
  ∧ run (resolve_inputs (PyStr "cq") PyNone (PyStr "master")
           (PyStr "https://fuchsia-review.googlesource.com") PyNone PyNone)
    = ([], inr (PyStr "https://fuchsia-review.googlesource.com/None", PyNone))
  ∧ ¬ inputs_accepted (PyStr "cq") PyNone (PyStr "master")
        (PyStr "https://fuchsia-review.googlesource.com") PyNone PyNone
  ∧ run (RunSteps api (PyStr "cq") PyNone (PyStr "master")
           (PyStr "https://fuchsia-review.googlesource.com") PyNone PyNone
           "jiri" "https://fuchsia.googlesource.com/manifest" "linux-amd64")
    = ([], inl (AssertionError (Some "repository url and refspec must be given"))).
Proof.
  intros api. split; [done |]. split; [done |]. split; [| done].
  intros (url & ref & Hres & Hchk).
  vm_compute in Hres. injection Hres as <- <-. by vm_compute in Hchk.
Qed.

(** C3: a target [OS-ARCH], of two fields around its first and only
    hyphen, is split at that hyphen into the two, and the build runs in a
    context whose environment holds them as they are under [GOOS] and
    [GOARCH]; [linux-amd64] gives [linux] and [amd64]. *)
Theorem target_fields_reach_build_env
    (api : Api)
    (category repo_url refspec gerrit_host gerrit_project gerrit_patch_ref : PyVal)
    (manifest remote os arch : string) :
  inputs_accepted category repo_url refspec gerrit_host gerrit_project gerrit_patch_ref →
  never_raises api →
  char_in "-" os = false →
  char_in "-" arch = false →
  unpack2 (split (os +:+ "-" +:+ arch) "-" (Some 2)) = Some (os, arch)
  ∧ unpack2 (split "linux-amd64" "-" (Some 2)) = Some ("linux", "amd64")
  ∧ ∃ ldflags,
      Ev {["env" := {["GOPATH" := EnvPath (join slave_build ["go"]);
                      "GOOS" := EnvStr os; "GOARCH" := EnvStr arch]}]}
         (go_build ["fuchsia.googlesource.com/jiri/cmd/jiri"] ldflags true)
      ∈ (run (RunSteps api category repo_url refspec gerrit_host gerrit_project
                gerrit_patch_ref manifest remote (os +:+ "-" +:+ arch))).1.
Proof.
  intros Hok Hq Hos Harch.
  pose proof (unpack2_split_pair os arch "-" Hos Harch) as Hsplit.
  split; [done |]. split; [done |].
  eexists. rewrite (RunSteps_complete api _ _ _ _ _ _ _ _ _ os arch) by done.
  cbn [fst]. rewrite !elem_of_app. right. right. apply list_elem_of_here.
Qed.

Lemma target_fields_reach_build_env_witness :
  let api := sample_api in
  unpack2 (split ("linux" +:+ "-" +:+ "amd64") "-" (Some 2)) = Some ("linux", "amd64")
  ∧ unpack2 (split "linux-amd64" "-" (Some 2)) = Some ("linux", "amd64")
  ∧ ∃ ldflags,
      Ev {["env" := {["GOPATH" := EnvPath (join slave_build ["go"]);
                      "GOOS" := EnvStr "linux"; "GOARCH" := EnvStr "amd64"]}]}
         (go_build ["fuchsia.googlesource.com/jiri/cmd/jiri"] ldflags true)
      ∈ (run (RunSteps api PyNone (PyStr "https://fuchsia.googlesource.com/jiri")
                (PyStr "master") PyNone PyNone PyNone
                "jiri" "https://fuchsia.googlesource.com/manifest"
                ("linux" +:+ "-" +:+ "amd64"))).1.
Proof.
  intros api.
  apply (target_fields_reach_build_env api PyNone
           (PyStr "https://fuchsia.googlesource.com/jiri") (PyStr "master")
           PyNone PyNone PyNone).
  - by eexists _, _.
  - by intros ctx c.
  - reflexivity.
  - reflexivity.
Defined.

(** C4: in a run whose inputs pass the assertions, the calls on [api.jiri]
    are made in the order [ensure_jiri], [set_config], [clean_project],
    [import_manifest] with [overwrite=True], [update] with [gc=True], and
    then [patch] with [delete=True] and [force=True] exactly when the
    category is [cq]: the calls made are always the first ones of that
    list, and the whole list when no [api.jiri] call raises. *)
Theorem checkout_calls_in_order
    (api : Api)
    (category repo_url refspec gerrit_host gerrit_project gerrit_patch_ref : PyVal)
    (manifest remote target : string) :
  inputs_accepted category repo_url refspec gerrit_host gerrit_project gerrit_patch_ref →
  let made :=
    jiri_calls (run (RunSteps api category repo_url refspec gerrit_host gerrit_project
                       gerrit_patch_ref manifest remote target)).1 in
  let in_order :=
    [jiri_ensure_jiri; jiri_set_config "jiri"; jiri_clean_project;
     jiri_import_manifest manifest remote true; jiri_update true]
    ++ (if bool_decide (category = PyStr "cq")
        then [jiri_patch gerrit_patch_ref gerrit_host true true]
        else []) in
  made `prefix_of` in_order
  ∧ ((∀ c, is_jiri c = true → step_raises api ∅ c = false) → made = in_order).
Proof.
  intros Hok made in_order.
  assert (∃ rest,
            jiri_calls rest = []
            ∧ made = jiri_calls
                       (perform api
                          (sync_events category gerrit_host gerrit_patch_ref manifest remote
                           ++ rest)).1) as (rest & Hrest & ->).
  { unfold made. rewrite RunSteps_accepted by done.
    destruct (unpack2 (split target "-" (Some 2))) as [[goos goarch]|] eqn:Ht.
    - exists (toolchain_events ++ build_events api goos goarch). split; [done |].
      by rewrite (post_validation_perform _ _ _ _ _ _ _ goos goarch).
    - exists toolchain_events. split; [done |].
      rewrite post_validation_bad_target by done.
      by destruct (perform api _) as [t [e|[]]]. }
  destruct (jiri_calls_of_perform api
              (sync_events category gerrit_host gerrit_patch_ref manifest remote)
              rest Hrest) as [Hprefix Hall].
  rewrite jiri_calls_sync in Hprefix, Hall.
  split; [done |]. intros Hq. by apply Hall, sync_events_quiet.
Qed.

Lemma checkout_calls_in_order_witness :
  jiri_calls (run (RunSteps sample_api (PyStr "cq") PyNone (PyStr "master")
                     (PyStr "https://fuchsia-review.googlesource.com") (PyStr "jiri")
                     (PyStr "refs/changes/0/1/2")
                     "jiri" "https://fuchsia.googlesource.com/manifest"
                     "linux-amd64")).1
  = [jiri_ensure_jiri; jiri_set_config "jiri"; jiri_clean_project;
     jiri_import_manifest "jiri" "https://fuchsia.googlesource.com/manifest" true;
     jiri_update true;
     jiri_patch (PyStr "refs/changes/0/1/2")
       (PyStr "https://fuchsia-review.googlesource.com") true true].
Proof.
  apply (checkout_calls_in_order sample_api (PyStr "cq") PyNone (PyStr "master")
           (PyStr "https://fuchsia-review.googlesource.com") (PyStr "jiri")
           (PyStr "refs/changes/0/1/2")).
  - by eexists _, _.
  - by intros c _.
Defined.

(** C6: the build runs in a context whose environment holds exactly
    [GOPATH], [GOOS] and [GOARCH], and the test in a context, and with an
    [env] argument, that hold [GOPATH] only: neither sets [GOOS] or
    [GOARCH].  Whatever the collaborators do, the runs of the Go tool are
    the first ones of these two, and both when the inputs pass and no step
    raises. *)
Theorem go_tool_environments
    (api : Api)
    (category repo_url refspec gerrit_host gerrit_project gerrit_patch_ref : PyVal)
    (manifest remote target goos goarch : string) :
  unpack2 (split target "-" (Some 2)) = Some (goos, goarch) →
  let go_path := EnvPath (join slave_build ["go"]) in
  let build_env : Env :=
    {["GOPATH" := go_path; "GOOS" := EnvStr goos; "GOARCH" := EnvStr goarch]} in
  let test_env : Env := {["GOPATH" := go_path]} in
  let runs :=
    go_runs (run (RunSteps api category repo_url refspec gerrit_host gerrit_project
                    gerrit_patch_ref manifest remote target)).1 in
  (∃ ldflags,
     let both :=
       [Ev {["env" := build_env]}
           (go_build ["fuchsia.googlesource.com/jiri/cmd/jiri"] ldflags true);
        Ev {["env" := test_env]}
           (go_test ["fuchsia.googlesource.com/jiri/cmd/jiri"] test_env)] in
     runs `prefix_of` both
     ∧ (inputs_accepted category repo_url refspec gerrit_host gerrit_project
          gerrit_patch_ref →
        never_raises api → runs = both))
  ∧ dom build_env = ({["GOPATH"; "GOOS"; "GOARCH"]} : gset string)
  ∧ dom test_env = ({["GOPATH"]} : gset string)
  ∧ test_env !! "GOOS" = None
  ∧ test_env !! "GOARCH" = None.
Proof.
  intros Ht go_path build_env test_env runs. split; [| split; [| done]].
  - exists (ldflags_of (rev_parse_stdout api srcdir) (isoformat (now api) "T")).
    change (runs `prefix_of` build_events api goos goarch
            ∧ (inputs_accepted category repo_url refspec gerrit_host gerrit_project
                 gerrit_patch_ref →
               never_raises api → runs = build_events api goos goarch)).
    split.
    + rewrite <- (go_runs_full api category gerrit_host gerrit_patch_ref manifest remote
                    goos goarch).
      by apply filter_prefix, RunSteps_trace_prefix.
    + intros Hok Hq. unfold runs.
      rewrite (RunSteps_complete api _ _ _ _ _ _ _ _ _ goos goarch) by done.
      cbn [fst]. by rewrite go_runs_full.
  - unfold build_env. rewrite !dom_insert_L, dom_singleton_L. set_solver.
Qed.

Lemma go_tool_environments_witness :
  let go_path := EnvPath (join slave_build ["go"]) in
  let build_env : Env :=
    {["GOPATH" := go_path; "GOOS" := EnvStr "linux"; "GOARCH" := EnvStr "amd64"]} in
  let test_env : Env := {["GOPATH" := go_path]} in
  (∃ ldflags,
     go_runs (run (RunSteps sample_api PyNone
                     (PyStr "https://fuchsia.googlesource.com/jiri")
                     (PyStr "master") PyNone PyNone PyNone
                     "jiri" "https://fuchsia.googlesource.com/manifest"
                     "linux-amd64")).1
     = [Ev {["env" := build_env]}
           (go_build ["fuchsia.googlesource.com/jiri/cmd/jiri"] ldflags true);
        Ev {["env" := test_env]}
           (go_test ["fuchsia.googlesource.com/jiri/cmd/jiri"] test_env)])
  ∧ dom build_env = ({["GOPATH"; "GOOS"; "GOARCH"]} : gset string)
  ∧ dom test_env = ({["GOPATH"]} : gset string).
Proof.
  intros go_path build_env test_env.
  destruct (go_tool_environments sample_api PyNone
              (PyStr "https://fuchsia.googlesource.com/jiri") (PyStr "master")
              PyNone PyNone PyNone
              "jiri" "https://fuchsia.googlesource.com/manifest" "linux-amd64"
              "linux" "amd64" eq_refl)
    as [(ldflags & _ & Hboth) (Hbuild & Htest & _)].
  split; [| by split].
  exists ldflags. apply Hboth.
  - by eexists _, _.
  - by intros ctx c.
Defined.

(** C7: the linker flags given to the build are the template of line 66,
    which has exactly two conversions, with both filled in: the
    [version.GitCommit] one with what [git rev-parse] printed in the
    checkout directory and the [version.BuildTime] one with the time of day
    in ISO format; the build and the test both name the package
    [fuchsia.googlesource.com/jiri/cmd/jiri]. *)
Theorem build_embeds_commit_and_time
    (api : Api)
    (category repo_url refspec gerrit_host gerrit_project gerrit_patch_ref : PyVal)
    (manifest remote target : string) :
  inputs_accepted category repo_url refspec gerrit_host gerrit_project gerrit_patch_ref →
  never_raises api →
  field_count target "-" = 2 →
  let checkout_dir :=
    join slave_build ["go"; "src"; "fuchsia.googlesource.com"; "jiri"] in
  let git_commit := rev_parse_stdout api checkout_dir in
  let build_time := isoformat (now api) "T" in
  let ldflags :=
    "-X " +:+ dquote +:+ "fuchsia.googlesource.com/jiri/version.GitCommit="
    +:+ git_commit +:+ dquote
    +:+ " -X " +:+ dquote +:+ "fuchsia.googlesource.com/jiri/version.BuildTime="
    +:+ build_time +:+ dquote in
  let trace :=
    (run (RunSteps api category repo_url refspec gerrit_host gerrit_project
            gerrit_patch_ref manifest remote target)).1 in
  Ev ∅ (git_rev_parse checkout_dir) ∈ trace
  ∧ (∀ args, is_Some (percent_format ldflags_template args) ↔ length args = 2)
  ∧ percent_format ldflags_template [PyStr git_commit; PyStr build_time] = Some ldflags
  ∧ ev_call <$> go_runs trace
    = [go_build ["fuchsia.googlesource.com/jiri/cmd/jiri"] ldflags true;
       go_test ["fuchsia.googlesource.com/jiri/cmd/jiri"]
         {["GOPATH" := EnvPath (join slave_build ["go"])]}].
Proof.
  intros Hok Hq (goos & goarch & Ht)%two_fields_unpack
    checkout_dir git_commit build_time ldflags trace.
  unfold trace. rewrite (RunSteps_complete api _ _ _ _ _ _ _ _ _ goos goarch) by done.
  cbn [fst]. split; [| split; [| split]].
  - rewrite !elem_of_app. right. left. apply list_elem_of_further, list_elem_of_here.
  - apply ldflags_template_two_conversions.
  - reflexivity.
  - by rewrite go_runs_full.
Qed.

Lemma build_embeds_commit_and_time_witness :
  let api := sample_api in
  let checkout_dir :=
    join slave_build ["go"; "src"; "fuchsia.googlesource.com"; "jiri"] in
  let ldflags :=
    "-X " +:+ dquote +:+ "fuchsia.googlesource.com/jiri/version.GitCommit="
    +:+ "4f1d2c3" +:+ dquote
    +:+ " -X " +:+ dquote +:+ "fuchsia.googlesource.com/jiri/version.BuildTime="
    +:+ "2016-07-04T09:05:03" +:+ dquote in
  let trace :=
    (run (RunSteps api PyNone (PyStr "https://fuchsia.googlesource.com/jiri")
            (PyStr "master") PyNone PyNone PyNone
            "jiri" "https://fuchsia.googlesource.com/manifest" "linux-amd64")).1 in
  Ev ∅ (git_rev_parse checkout_dir) ∈ trace
  ∧ (∀ args, is_Some (percent_format ldflags_template args) ↔ length args = 2)
  ∧ percent_format ldflags_template [PyStr "4f1d2c3"; PyStr "2016-07-04T09:05:03"]
    = Some ldflags
  ∧ ev_call <$> go_runs trace
    = [go_build ["fuchsia.googlesource.com/jiri/cmd/jiri"] ldflags true;
       go_test ["fuchsia.googlesource.com/jiri/cmd/jiri"]
         {["GOPATH" := EnvPath (join slave_build ["go"])]}].
Proof.
  intros api.
  apply (build_embeds_commit_and_time api PyNone
           (PyStr "https://fuchsia.googlesource.com/jiri") (PyStr "master")
           PyNone PyNone PyNone
           "jiri" "https://fuchsia.googlesource.com/manifest" "linux-amd64").
  - by eexists _, _.
  - by intros ctx c.
  - reflexivity.
Defined.

(** C9: a target that has not exactly two hyphen-separated fields, such as
    [linux] or [linux-amd64-variant], is found out at line 68 only: with
    inputs that pass and collaborators that do not raise, the run ends in
    a [ValueError] after the checkout (ensure, configure, clean, import,
    update, and patch under [cq]), the toolchain installation and the
    commit lookup have all been made, and before any build or test. *)
Theorem bad_target_is_found_late
    (api : Api)
    (category repo_url refspec gerrit_host gerrit_project gerrit_patch_ref : PyVal)
    (manifest remote target : string) :
  inputs_accepted category repo_url refspec gerrit_host gerrit_project gerrit_patch_ref →
  never_raises api →
  field_count target "-" ≠ 2 →
  run (RunSteps api category repo_url refspec gerrit_host gerrit_project
         gerrit_patch_ref manifest remote target)
  = (Ev ∅ <$> ([jiri_ensure_jiri; jiri_set_config "jiri"; jiri_clean_project;
                jiri_import_manifest manifest remote true; jiri_update true]
               ++ (if bool_decide (category = PyStr "cq")
                   then [jiri_patch gerrit_patch_ref gerrit_host true true]
                   else [])
               ++ [go_install_go;
                   git_rev_parse
                     (join slave_build ["go"; "src"; "fuchsia.googlesource.com"; "jiri"])]),
     inl ValueError).
Proof.
  intros Hok Hq Ht%unpack2_split_None.
  rewrite RunSteps_bad_target by done.
  unfold sync_events, toolchain_events, py_eq.
  by destruct (bool_decide (category = PyStr "cq")).
Qed.

Lemma bad_target_is_found_late_witness :
  run (RunSteps
         sample_api
         (PyStr "cq") PyNone (PyStr "master")
         (PyStr "https://fuchsia-review.googlesource.com") (PyStr "jiri")
         (PyStr "refs/changes/0/1/2")
         "jiri" "https://fuchsia.googlesource.com/manifest" "linux-amd64-variant")
  = (Ev ∅ <$> [jiri_ensure_jiri; jiri_set_config "jiri"; jiri_clean_project;
               jiri_import_manifest "jiri" "https://fuchsia.googlesource.com/manifest" true;
               jiri_update true;
               jiri_patch (PyStr "refs/changes/0/1/2")
                 (PyStr "https://fuchsia-review.googlesource.com") true true;
               go_install_go;
               git_rev_parse
                 (join slave_build ["go"; "src"; "fuchsia.googlesource.com"; "jiri"])],
     inl ValueError).
Proof.
  apply (bad_target_is_found_late _ (PyStr "cq") PyNone (PyStr "master")
           (PyStr "https://fuchsia-review.googlesource.com") (PyStr "jiri")
           (PyStr "refs/changes/0/1/2")).
  - by eexists _, _.
  - by intros ctx c.
  - by vm_compute.
Defined.

(** ** Further facts about the string methods *)

Section MoreStringFacts.
Implicit Types (s t chars : string) (c sep : ascii).

Lemma startswith_nonempty s : startswith s "https://" = true → s ≠ "".
Proof. by destruct s. Qed.

Lemma char_in_cons sep c s :
  Ascii.eqb c sep = false → char_in sep s = false → char_in sep (String c s) = false.
Proof. intros Hc Hs. simpl. by rewrite (Ascii.eqb_sym sep c), Hc, Hs. Qed.

(** The first field of a split that may still cut: it has no separator in
    it, and it is either the whole string or what stands before the first
    separator, the other fields being those of what stands after. *)
Lemma split_first s sep m field fields :
  has_budget m = true →
  split s sep m = field :: fields →
  char_in sep field = false
  ∧ ((fields = [] ∧ s = field)
     ∨ ∃ s', s = field +:+ String sep s' ∧ fields = split s' sep (spend m)).
Proof.
  intros Hm. revert field fields.
  induction s as [|c s IH]; intros field fields; simpl.
  - intros [= <- <-]. split; [done | by left].
  - rewrite Hm, andb_true_r. destruct (Ascii.eqb c sep) eqn:Hc.
    + apply Ascii.eqb_eq in Hc as ->. intros [= <- <-].
      split; [done |]. right. by exists s.
    + destruct (split s sep m) as [|f fs] eqn:Hs; [by destruct (split_nonempty s sep m) |].
      intros [= <- <-].
      destruct (IH f fs eq_refl) as [Hf Hcases].
      split; [by apply char_in_cons |].
      destruct Hcases as [[-> ->] | (s' & -> & ->)]; [by left |].
      right. by exists s'.
Qed.

Lemma rstrip_length s chars : String.length (rstrip s chars) ≤ String.length s.
Proof.
  induction s as [|c s IH]; simpl; [done |].
  destruct (rstrip s chars); [destruct (char_in c chars) |]; simpl in *; lia.
Qed.

Lemma length_append s t : String.length (s +:+ t) = String.length s + String.length t.
Proof. induction s as [|c s IH]; [done |]. rewrite append_cons. simpl. by rewrite IH. Qed.

(** What [rstrip] removes is made of the characters to strip. *)
Lemma rstrip_removed s chars :
  ∃ tail, s = rstrip s chars +:+ tail ∧ rstrip tail chars = "".
Proof.
  induction s as [|c s (tail & Hs & Htail)]; simpl.
  - by exists "".
  - destruct (rstrip s chars) as [|d r] eqn:Hr.
    + destruct (char_in c chars) eqn:Hc.
      * exists (String c s). split; [done |]. simpl. by rewrite Hr, Hc.
      * exists tail. split; [| done]. rewrite append_cons. by rewrite Hs at 1.
    + exists tail. split; [| done]. rewrite append_cons. by rewrite Hs at 1.
Qed.

(** A string that [rstrip] empties, for one character to strip, is made
    of that character. *)
Lemma rstrip_empty_repeat s c :
  rstrip s (String c "") = "" → s = repeat_char c (String.length s).
Proof.
  induction s as [|d s IH]; simpl; [done |].
  destruct (rstrip s (String c "")) eqn:Hr; [| done].
  rewrite orb_false_r. destruct (Ascii.eqb d c) eqn:Hd; [| done].
  apply Ascii.eqb_eq in Hd as ->. intros _. by rewrite <- IH.
Qed.

Lemma rstrip_idempotent s chars : rstrip (rstrip s chars) chars = rstrip s chars.
Proof.
  induction s as [|c s IH]; simpl; [done |].
  destruct (rstrip s chars) as [|d r] eqn:Hr.
  - destruct (char_in c chars) eqn:Hc; simpl; [done | by rewrite Hc].
  - change (rstrip (String c (String d r)) chars = String c (String d r)).
    simpl in IH |- *. by rewrite IH.
Qed.

(** What [rstrip] returns does not end with a character to strip. *)
Lemma rstrip_no_trailing s chars c t :
  char_in c chars = true → rstrip s chars ≠ t +:+ String c "".
Proof.
  intros Hc Heq.
  pose proof (rstrip_idempotent s chars) as Hid. rewrite Heq in Hid.
  rewrite rstrip_append in Hid by (simpl; by rewrite Hc).
  pose proof (rstrip_length t chars) as Hlen.
  rewrite Hid, length_append in Hlen. simpl in Hlen. lia.
Qed.

End MoreStringFacts.

(** ** Further facts about runs *)

Section Outcomes.
Context (api : Api).
Implicit Types
  (category repo_url refspec gerrit_host gerrit_project gerrit_patch_ref : PyVal)
  (manifest remote target : string) (events : list Event).

(** How a list of calls ends: with all of them made and returned, or at
    the first that raises, which is the last one made. *)
Lemma perform_outcome events :
  match (perform api events).2 with
  | inr _ => (perform api events).1 = events ∧ Forall (returns api) events
  | inl e =>
      ∃ before last,
        (perform api events).1 = before ++ [last]
        ∧ e = StepFailure (ev_call last)
        ∧ step_raises api (ev_context last) (ev_call last) = true
        ∧ Forall (returns api) before
  end.
Proof.
  induction events as [|e events IH]; simpl; [done |].
  destruct (step_raises api (ev_context e) (ev_call e)) eqn:He; simpl.
  - by exists [], e.
  - destruct (perform api events) as [t [x|[]]]; simpl in *.
    + destruct IH as (before & last & -> & -> & Hlast & Hbefore).
      exists (e :: before), last. repeat split; [done |]. by constructor.
    + destruct IH as [-> Hall]. split; [done |]. by constructor.
Qed.

Lemma perform_returns events :
  (perform api events).2 = inr () ↔ Forall (returns api) events.
Proof.
  split.
  - intros Hr. pose proof (perform_outcome events) as Ho. rewrite Hr in Ho. apply Ho.
  - intros Hall. by rewrite perform_quiet.
Qed.

(** Past the assertions, a run is the pipeline made call by call, with
    the [ValueError] of line 68 at its end for a target it cannot
    unpack. *)
Lemma RunSteps_pipeline
    category repo_url refspec gerrit_host gerrit_project gerrit_patch_ref
    manifest remote target :
  inputs_accepted category repo_url refspec gerrit_host gerrit_project gerrit_patch_ref →
  let made :=
    perform api (pipeline api category gerrit_host gerrit_patch_ref manifest remote target) in
  run (RunSteps api category repo_url refspec gerrit_host gerrit_project
         gerrit_patch_ref manifest remote target)
  = (made.1,
     match made.2 with
     | inl e => inl e
     | inr _ =>
         match unpack2 (split target "-" (Some 2)) with
         | Some _ => inr ()
         | None => inl ValueError
         end
     end).
Proof.
  intros Hok made. subst made. unfold pipeline.
  rewrite RunSteps_accepted by done.
  destruct (unpack2 (split target "-" (Some 2))) as [[goos goarch]|] eqn:Ht.
  - rewrite (post_validation_perform _ _ _ _ _ _ _ goos goarch) by done.
    by destruct (perform api _) as [t [e|[]]].
  - rewrite post_validation_bad_target, !app_nil_r by done.
    by destruct (perform api _) as [t [e|[]]].
Qed.

(** What ends a run whose inputs are not accepted. *)
Lemma RunSteps_rejected
    category repo_url refspec gerrit_host gerrit_project gerrit_patch_ref
    manifest remote target :
  ¬ inputs_accepted category repo_url refspec gerrit_host gerrit_project gerrit_patch_ref →
  ∃ e,
    run (RunSteps api category repo_url refspec gerrit_host gerrit_project
           gerrit_patch_ref manifest remote target) = ([], inl e)
    ∧ ((category = PyStr "cq" ∧ gerrit_host = PyNone ∧ e = AttributeError)
       ∨ (¬ (category = PyStr "cq" ∧ gerrit_host = PyNone)
          ∧ ∃ msg, e = AssertionError msg)).
Proof.
  intros Hno.
  assert (∀ url ref,
            run (resolve_inputs category repo_url refspec gerrit_host gerrit_project
                   gerrit_patch_ref) = ([], inr (url, ref)) →
            ∃ msg, run (check_inputs url ref) = ([], inl (AssertionError msg)))
    as Hcheck.
  { intros url ref Hres. unfold run. rewrite check_inputs_eq.
    destruct (truthy url && truthy ref) eqn:Htruthy; [| by eexists].
    destruct url as [|s]; [done |].
    destruct (startswith s "https://") eqn:Hs; [| by eexists].
    destruct Hno. exists (PyStr s), ref. split; [done |].
    unfold run. by rewrite check_inputs_eq, Htruthy, Hs. }
  destruct (decide (category = PyStr "cq")) as [->|Hc].
  - pose proof (resolve_inputs_cq repo_url refspec gerrit_host gerrit_project
                  gerrit_patch_ref ∅) as Hres.
    destruct gerrit_host as [|h].
    + exists AttributeError. split; [by apply RunSteps_unresolved | by left].
    + destruct (startswith h "https://").
      * destruct (Hcheck _ _ Hres) as [msg Hchk]. exists (AssertionError msg).
        split; [by eapply RunSteps_unchecked |]. right. split; [by intros (_ & ?) | by eexists].
      * exists (AssertionError None).
        split; [by apply RunSteps_unresolved |]. right. split; [by intros (_ & ?) | by eexists].
  - pose proof (resolve_inputs_direct category repo_url refspec gerrit_host
                  gerrit_project gerrit_patch_ref ∅ Hc) as Hres.
    destruct (Hcheck _ _ Hres) as [msg Hchk]. exists (AssertionError msg).
    split; [by eapply RunSteps_unchecked |]. right. split; [by intros (? & _) | by eexists].
Qed.

Lemma inputs_accepted_dec
    category repo_url refspec gerrit_host gerrit_project gerrit_patch_ref :
  inputs_accepted category repo_url refspec gerrit_host gerrit_project gerrit_patch_ref
  ∨ ¬ inputs_accepted category repo_url refspec gerrit_host gerrit_project gerrit_patch_ref.
Proof.
  destruct (RunSteps_cases api category repo_url refspec gerrit_host gerrit_project
              gerrit_patch_ref "" "" "") as [Hok|[e He]]; [by left |].
  right. intros Hok.
  destruct (accepted_run_starts api _ _ _ _ _ _ "" "" "" Hok) as [rest Hrest].
  by rewrite He in Hrest.
Qed.

End Outcomes.

Section MoreCalls.
Context (api : Api).

(** What follows a list of calls and has no [api.jiri] call in it does not
    change the [api.jiri] calls made. *)
Lemma jiri_calls_perform_app (sync rest : list Event) :
  jiri_calls rest = [] →
  jiri_calls (perform api (sync ++ rest)).1 = jiri_calls (perform api sync).1.
Proof.
  intros Hrest. rewrite perform_app.
  destruct (perform api sync) as [t [e|[]]]; [done |].
  cbn [fst]. rewrite jiri_calls_app.
  pose proof (jiri_calls_prefix _ _ (perform_prefix api rest)) as Hp.
  rewrite Hrest in Hp. apply prefix_nil_inv in Hp. by rewrite Hp, app_nil_r.
Qed.

Lemma pipeline_length category gerrit_host gerrit_patch_ref manifest remote target :
  length (pipeline api category gerrit_host gerrit_patch_ref manifest remote target) ≤ 10.
Proof.
  unfold pipeline, sync_events.
  destruct (py_eq category (PyStr "cq")),
    (unpack2 (split target "-" (Some 2))) as [[goos goarch]|]; simpl; lia.
Qed.


Lemma pipeline_after_sync category gerrit_host gerrit_patch_ref manifest remote target :
  ∃ rest,
    pipeline api category gerrit_host gerrit_patch_ref manifest remote target
    = sync_events category gerrit_host gerrit_patch_ref manifest remote ++ rest
    ∧ jiri_calls rest = [].
Proof.
  unfold pipeline. eexists. split; [done |].
  by destruct (unpack2 (split target "-" (Some 2))) as [[goos goarch]|].
Qed.

Lemma unpack2_pair (fields : list string) (a b : string) :
  unpack2 fields = Some (a, b) → fields = [a; b].
Proof. destruct fields as [|x [|y [|z l]]]; simpl; intros; by simplify_eq. Qed.

Lemma unpacked_two_fields target goos goarch :
  unpack2 (split target "-" (Some 2)) = Some (goos, goarch) → field_count target "-" = 2.
Proof.
  intros Ht. destruct (decide (field_count target "-" = 2)) as [|Hn]; [done |].
  apply unpack2_split_None in Hn. congruence.
Qed.

End MoreCalls.

(** ** Properties of the recipe beyond the listed ones *)

(** X1: the assertions of lines 42-48 accept the inputs exactly when,
    under [cq], the Gerrit host is an https one, the URL made of it and of
    the project is an https one and the patch ref is not empty, and, under
    any other category, the repository URL is an https one and the refspec
    is not empty. *)
Theorem acceptance_decided_by_inputs
    (category repo_url refspec gerrit_host gerrit_project gerrit_patch_ref : PyVal) :
  inputs_accepted category repo_url refspec gerrit_host gerrit_project gerrit_patch_ref
  ↔ (category = PyStr "cq"
     ∧ truthy gerrit_patch_ref = true
     ∧ ∃ host,
         gerrit_host = PyStr host
         ∧ startswith host "https://" = true
         ∧ startswith (rstrip host "/" +:+ "/" +:+ py_str gerrit_project) "https://" = true)
    ∨ (category ≠ PyStr "cq"
       ∧ truthy refspec = true
       ∧ ∃ url, repo_url = PyStr url ∧ startswith url "https://" = true).
Proof.
  unfold inputs_accepted, run.
  destruct (decide (category = PyStr "cq")) as [->|Hc].
  - rewrite resolve_inputs_cq. split.
    + intros (url & ref & Hres & Hchk). left. split; [done |].
      destruct gerrit_host as [|host]; [done |].
      destruct (startswith host "https://") eqn:Hhost; [| done].
      injection Hres as <- <-.
      apply check_inputs_passes in Hchk as [Href (s & [= <-] & _ & Hs)].
      split; [done |]. by exists host.
    + intros [(_ & Href & host & -> & Hhost & Hurl) | (? & _)]; [| done].
      rewrite Hhost. eexists _, _. split; [done |].
      apply check_inputs_passes. split; [done |]. eexists. split; [done |].
      split; [by apply startswith_nonempty | done].
  - rewrite resolve_inputs_direct by done. split.
    + intros (url & ref & [= <- <-] & Hchk). right. split; [done |].
      apply check_inputs_passes in Hchk as [Href (s & -> & _ & Hs)].
      split; [done |]. by exists s.
    + intros [(? & _) | (_ & Href & url & -> & Hurl)]; [done |].
      eexists _, _. split; [done |].
      apply check_inputs_passes. split; [done |]. eexists. split; [done |].
      split; [by apply startswith_nonempty | done].
Qed.

(** X2: a run whose inputs the assertions do not accept makes no
    collaborator call; it ends in an [AttributeError] when the category is
    [cq] and no Gerrit host is given, and in an [AssertionError] in every
    other case. *)
Theorem rejected_run_makes_no_call
    (api : Api)
    (category repo_url refspec gerrit_host gerrit_project gerrit_patch_ref : PyVal)
    (manifest remote target : string) :
  ¬ inputs_accepted category repo_url refspec gerrit_host gerrit_project gerrit_patch_ref →
  ∃ e,
    run (RunSteps api category repo_url refspec gerrit_host gerrit_project
           gerrit_patch_ref manifest remote target) = ([], inl e)
    ∧ ((category = PyStr "cq" ∧ gerrit_host = PyNone ∧ e = AttributeError)
       ∨ (¬ (category = PyStr "cq" ∧ gerrit_host = PyNone)
          ∧ ∃ msg, e = AssertionError msg)).
Proof. apply RunSteps_rejected. Qed.

Lemma rejected_run_makes_no_call_witness :
  ∃ e,
    run (RunSteps sample_api (PyStr "cq") (PyStr "https://fuchsia.googlesource.com/jiri")
           (PyStr "master") PyNone (PyStr "jiri") (PyStr "refs/changes/0/1/2")
           "jiri" "https://fuchsia.googlesource.com/manifest" "linux-amd64")
    = ([], inl e)
    ∧ ((PyStr "cq" = PyStr "cq" ∧ PyNone = PyNone ∧ e = AttributeError)
       ∨ (¬ (PyStr "cq" = PyStr "cq" ∧ PyNone = PyNone)
          ∧ ∃ msg, e = AssertionError msg)).
Proof.
  apply rejected_run_makes_no_call.
  intros (url & ref & Hres & _). by vm_compute in Hres.
Defined.

(** X3: whatever the collaborators do and whatever the inputs are, the
    calls of a run are the first ones of the pipeline, in its order:
    checkout, toolchain, commit lookup, build, test; a run makes ten calls
    at most. *)
Theorem calls_follow_the_pipeline
    (api : Api)
    (category repo_url refspec gerrit_host gerrit_project gerrit_patch_ref : PyVal)
    (manifest remote target : string) :
  let made :=
    (run (RunSteps api category repo_url refspec gerrit_host gerrit_project
            gerrit_patch_ref manifest remote target)).1 in
  made `prefix_of` pipeline api category gerrit_host gerrit_patch_ref manifest remote target
  ∧ length made ≤ 10.
Proof.
  intros made.
  assert (made `prefix_of`
            pipeline api category gerrit_host gerrit_patch_ref manifest remote target)
    as Hprefix.
  { unfold made.
    destruct (inputs_accepted_dec api category repo_url refspec gerrit_host
                gerrit_project gerrit_patch_ref) as [Hok|Hno].
    - rewrite RunSteps_pipeline by done. apply perform_prefix.
    - destruct (RunSteps_rejected api _ _ _ _ _ _ manifest remote target Hno)
        as (e & -> & _).
      apply prefix_nil. }
  split; [done |].
  apply prefix_length in Hprefix.
  pose proof (pipeline_length api category gerrit_host gerrit_patch_ref manifest
                remote target).
  lia.
Qed.

(** X4: a run returns exactly when the inputs are accepted, the target
    has two fields and no call of the pipeline raises; the calls it has
    made are then the whole pipeline. *)
Theorem run_returns_iff
    (api : Api)
    (category repo_url refspec gerrit_host gerrit_project gerrit_patch_ref : PyVal)
    (manifest remote target : string) :
  let outcome :=
    run (RunSteps api category repo_url refspec gerrit_host gerrit_project
           gerrit_patch_ref manifest remote target) in
  let calls := pipeline api category gerrit_host gerrit_patch_ref manifest remote target in
  (outcome.2 = inr ()
   ↔ inputs_accepted category repo_url refspec gerrit_host gerrit_project gerrit_patch_ref
     ∧ field_count target "-" = 2
     ∧ Forall (returns api) calls)
  ∧ (outcome.2 = inr () ↔ outcome = (calls, inr ())).
Proof.
  intros outcome calls.
  destruct (inputs_accepted_dec api category repo_url refspec gerrit_host
              gerrit_project gerrit_patch_ref) as [Hok|Hno].
  - assert (outcome.2 = inr ()
            ↔ field_count target "-" = 2 ∧ Forall (returns api) calls) as Hiff.
    { unfold outcome. rewrite RunSteps_pipeline by done. cbn [snd]. fold calls.
      rewrite <- perform_returns. split.
      - destruct (perform api calls).2 as [e|[]]; [done |].
        destruct (unpack2 (split target "-" (Some 2))) as [[goos goarch]|] eqn:Ht; [| done].
        intros _. split; [by eapply unpacked_two_fields | done].
      - intros [(goos & goarch & Ht)%two_fields_unpack ->]. by rewrite Ht. }
    split; [rewrite Hiff; tauto |].
    split; [| by intros ->].
    intros Hr. apply Hiff in Hr as Hall. destruct Hall as [_ Hall].
    destruct outcome as [t r] eqn:Ho. simpl in Hr. subst r. f_equal.
    assert (t = outcome.1) as -> by by rewrite Ho.
    unfold outcome. rewrite RunSteps_pipeline by done. cbn [fst]. fold calls.
    by rewrite perform_quiet.
  - destruct (RunSteps_rejected api _ _ _ _ _ _ manifest remote target Hno)
      as (e & He & _).
    unfold outcome. rewrite He. simpl. split; split; try done. by intros (? & _).
Qed.

(** X5: a run that ends because a collaborator step raised has made that
    call last, and every call before it had returned. *)
Theorem a_raising_step_ends_the_run
    (api : Api)
    (category repo_url refspec gerrit_host gerrit_project gerrit_patch_ref : PyVal)
    (manifest remote target : string) (c : Call) :
  (run (RunSteps api category repo_url refspec gerrit_host gerrit_project
          gerrit_patch_ref manifest remote target)).2 = inl (StepFailure c) →
  ∃ before ctx,
    (run (RunSteps api category repo_url refspec gerrit_host gerrit_project
            gerrit_patch_ref manifest remote target)).1 = before ++ [Ev ctx c]
    ∧ step_raises api ctx c = true
    ∧ Forall (returns api) before.
Proof.
  destruct (inputs_accepted_dec api category repo_url refspec gerrit_host
              gerrit_project gerrit_patch_ref) as [Hok|Hno].
  - rewrite RunSteps_pipeline by done. cbn [fst snd].
    pose proof (perform_outcome api
                  (pipeline api category gerrit_host gerrit_patch_ref manifest remote
                     target)) as Ho.
    destruct (perform api _).2 as [e|[]].
    + destruct Ho as (before & [ctx c'] & Ht & -> & Hraises & Hbefore).
      intros [= <-]. by exists before, ctx.
    + by destruct (unpack2 (split target "-" (Some 2))).
  - destruct (RunSteps_rejected api _ _ _ _ _ _ manifest remote target Hno)
      as (e & -> & [(_ & _ & ->) | (_ & msg & ->)]); done.
Qed.

Lemma a_raising_step_ends_the_run_witness :
  let api := {| step_raises := λ _ c, match c with git_rev_parse _ => true | _ => false end;
                rev_parse_stdout := λ _, "4f1d2c3";
                now := now sample_api |} in
  ∃ before ctx,
    (run (RunSteps api PyNone (PyStr "https://fuchsia.googlesource.com/jiri")
            (PyStr "master") PyNone PyNone PyNone
            "jiri" "https://fuchsia.googlesource.com/manifest" "linux-amd64")).1
    = before ++ [Ev ctx (git_rev_parse srcdir)]
    ∧ step_raises api ctx (git_rev_parse srcdir) = true
    ∧ Forall (returns api) before.
Proof.
  intros api. apply a_raising_step_ends_the_run. reflexivity.
Defined.

(** X6: the exceptions of a run.  A [ValueError] comes from a target that
    has not two fields, after the checkout and the toolchain calls, which
    all returned; an [AttributeError] comes from a missing Gerrit host
    under [cq] and an [AssertionError] from inputs that are not accepted,
    both before any call; a [TypeError] never ends a run. *)
Theorem exceptions_of_a_run
    (api : Api)
    (category repo_url refspec gerrit_host gerrit_project gerrit_patch_ref : PyVal)
    (manifest remote target : string) :
  let outcome :=
    run (RunSteps api category repo_url refspec gerrit_host gerrit_project
           gerrit_patch_ref manifest remote target) in
  let accepted :=
    inputs_accepted category repo_url refspec gerrit_host gerrit_project gerrit_patch_ref in
  match outcome.2 with
  | inr _ | inl (StepFailure _) => accepted
  | inl ValueError =>
      accepted
      ∧ field_count target "-" ≠ 2
      ∧ outcome.1 = sync_events category gerrit_host gerrit_patch_ref manifest remote
                    ++ toolchain_events
      ∧ Forall (returns api) outcome.1
  | inl TypeError => False
  | inl AttributeError =>
      outcome.1 = [] ∧ ¬ accepted ∧ category = PyStr "cq" ∧ gerrit_host = PyNone
  | inl (AssertionError _) => outcome.1 = [] ∧ ¬ accepted
  end.
Proof.
  intros outcome accepted. unfold outcome.
  destruct (inputs_accepted_dec api category repo_url refspec gerrit_host
              gerrit_project gerrit_patch_ref) as [Hok|Hno].
  - rewrite RunSteps_pipeline by done. cbn [fst snd].
    pose proof (perform_outcome api
                  (pipeline api category gerrit_host gerrit_patch_ref manifest remote
                     target)) as Ho.
    destruct (perform api _).2 as [e|[]].
    + by destruct Ho as (before & last & _ & -> & _).
    + destruct Ho as [Hmade Hall]. unfold pipeline in *.
      destruct (unpack2 (split target "-" (Some 2))) as [[goos goarch]|] eqn:Ht; [done |].
      rewrite !app_nil_r in *. rewrite Hmade.
      split; [done |]. split; [by apply unpack2_split_None |]. done.
  - destruct (RunSteps_rejected api _ _ _ _ _ _ manifest remote target Hno)
      as (e & -> & [(-> & -> & ->) | (_ & msg & ->)]); simpl; done.
Qed.

(** X7: the repository URL, the refspec and the Gerrit project are checked
    and then used for nothing: two runs whose inputs are accepted and
    differ in these only make the same calls and end the same way. *)
Theorem checked_values_are_not_used
    (api : Api)
    (category gerrit_host gerrit_patch_ref : PyVal)
    (repo_url1 refspec1 gerrit_project1 repo_url2 refspec2 gerrit_project2 : PyVal)
    (manifest remote target : string) :
  inputs_accepted category repo_url1 refspec1 gerrit_host gerrit_project1 gerrit_patch_ref →
  inputs_accepted category repo_url2 refspec2 gerrit_host gerrit_project2 gerrit_patch_ref →
  run (RunSteps api category repo_url1 refspec1 gerrit_host gerrit_project1
         gerrit_patch_ref manifest remote target)
  = run (RunSteps api category repo_url2 refspec2 gerrit_host gerrit_project2
           gerrit_patch_ref manifest remote target).
Proof. intros Hok1 Hok2. by rewrite !RunSteps_accepted. Qed.

Lemma checked_values_are_not_used_witness :
  run (RunSteps sample_api PyNone (PyStr "https://fuchsia.googlesource.com/jiri")
         (PyStr "master") PyNone PyNone PyNone
         "jiri" "https://fuchsia.googlesource.com/manifest" "linux-amd64")
  = run (RunSteps sample_api PyNone (PyStr "https://example.org/other")
           (PyStr "refs/heads/next") PyNone (PyStr "other") PyNone
           "jiri" "https://fuchsia.googlesource.com/manifest" "linux-amd64").
Proof.
  apply checked_values_are_not_used; by eexists _, _.
Defined.

(** X8: with a category other than [cq] the Gerrit host, project and
    patch ref have no effect on the run. *)
Theorem gerrit_values_ignored_without_cq
    (api : Api)
    (category repo_url refspec : PyVal)
    (gerrit_host1 gerrit_project1 gerrit_patch_ref1 : PyVal)
    (gerrit_host2 gerrit_project2 gerrit_patch_ref2 : PyVal)
    (manifest remote target : string) :
  category ≠ PyStr "cq" →
  run (RunSteps api category repo_url refspec gerrit_host1 gerrit_project1
         gerrit_patch_ref1 manifest remote target)
  = run (RunSteps api category repo_url refspec gerrit_host2 gerrit_project2
           gerrit_patch_ref2 manifest remote target).
Proof.
  intros Hc%py_eq_not_cq. unfold run, RunSteps, resolve_inputs, checkout.
  by rewrite Hc.
Qed.

Lemma gerrit_values_ignored_without_cq_witness :
  run (RunSteps sample_api PyNone (PyStr "https://fuchsia.googlesource.com/jiri")
         (PyStr "master") PyNone PyNone PyNone
         "jiri" "https://fuchsia.googlesource.com/manifest" "linux-amd64")
  = run (RunSteps sample_api PyNone (PyStr "https://fuchsia.googlesource.com/jiri")
           (PyStr "master") (PyStr "http://review.example.org") (PyStr "jiri")
           (PyStr "refs/changes/0/1/2")
           "jiri" "https://fuchsia.googlesource.com/manifest" "linux-amd64").
Proof. apply gerrit_values_ignored_without_cq. discriminate. Defined.

(** X9: line 68 unpacks the target into [goos] and [goarch] exactly when
    the target is [goos], a hyphen and [goarch], and neither has a hyphen
    in it: nothing of the target is lost, and no hyphen reaches [GOOS] or
    [GOARCH]. *)
Theorem target_unpacks_iff (target goos goarch : string) :
  unpack2 (split target "-" (Some 2)) = Some (goos, goarch)
  ↔ target = goos +:+ "-" +:+ goarch
    ∧ char_in "-" goos = false
    ∧ char_in "-" goarch = false.
Proof.
  split.
  - intros Hsplit%unpack2_pair.
    destruct (split_first target "-" (Some 2) goos [goarch] eq_refl Hsplit)
      as [Hos [[? _] | (rest & -> & Hrest)]]; [done |].
    symmetry in Hrest.
    destruct (split_first rest "-" (Some 1) goarch [] eq_refl Hrest)
      as [Harch [[_ ->] | (rest' & _ & Hnil)]]; [done |].
    symmetry in Hnil. by destruct (split_nonempty rest' "-" (Some 0)).
  - intros (-> & Hos & Harch). by apply unpack2_split_pair.
Qed.

(** X10: under [cq], an https host is its stripped form followed by
    slashes only, the stripped form does not end with a slash, and the
    resolved URL is the stripped form, one slash and the project. *)
Theorem cq_url_joins_with_one_slash
    (host : string) (repo_url refspec gerrit_project gerrit_patch_ref : PyVal) :
  startswith host "https://" = true →
  ∃ base n,
    host = base +:+ repeat_char "/" n
    ∧ (∀ s, base ≠ s +:+ "/")
    ∧ run (resolve_inputs (PyStr "cq") repo_url refspec
             (PyStr host) gerrit_project gerrit_patch_ref)
      = ([], inr (PyStr (base +:+ "/" +:+ py_str gerrit_project), gerrit_patch_ref)).
Proof.
  intros Hhost.
  destruct (rstrip_removed host "/") as (tail & Hsplit & Htail).
  exists (rstrip host "/"), (String.length tail). split; [| split].
  - by rewrite <- (rstrip_empty_repeat tail "/").
  - intros s. by apply rstrip_no_trailing.
  - unfold run. by rewrite resolve_inputs_cq, Hhost.
Qed.

Lemma cq_url_joins_with_one_slash_witness :
  ∃ base n,
    "https://fuchsia-review.googlesource.com//" = base +:+ repeat_char "/" n
    ∧ (∀ s, base ≠ s +:+ "/")
    ∧ run (resolve_inputs (PyStr "cq") PyNone (PyStr "master")
             (PyStr "https://fuchsia-review.googlesource.com//") (PyStr "jiri")
             (PyStr "refs/changes/0/1/2"))
      = ([], inr (PyStr (base +:+ "/" +:+ py_str (PyStr "jiri")),
                  PyStr "refs/changes/0/1/2")).
Proof. apply cq_url_joins_with_one_slash. reflexivity. Defined.


(** X12: the target has no effect on the checkout: two runs that differ
    in the target only make the same calls on Jiri, whatever the
    collaborators do. *)
Theorem target_does_not_reach_checkout
    (api : Api)
    (category repo_url refspec gerrit_host gerrit_project gerrit_patch_ref : PyVal)
    (manifest remote target1 target2 : string) :
  jiri_calls (run (RunSteps api category repo_url refspec gerrit_host gerrit_project
                     gerrit_patch_ref manifest remote target1)).1
  = jiri_calls (run (RunSteps api category repo_url refspec gerrit_host gerrit_project
                       gerrit_patch_ref manifest remote target2)).1.
Proof.
  destruct (inputs_accepted_dec api category repo_url refspec gerrit_host
              gerrit_project gerrit_patch_ref) as [Hok|Hno].
  - rewrite !RunSteps_pipeline by done. cbn [fst].
    destruct (pipeline_after_sync api category gerrit_host gerrit_patch_ref manifest
                remote target1) as (rest1 & -> & Hrest1).
    destruct (pipeline_after_sync api category gerrit_host gerrit_patch_ref manifest
                remote target2) as (rest2 & -> & Hrest2).
    by rewrite !jiri_calls_perform_app.
  - destruct (RunSteps_rejected api _ _ _ _ _ _ manifest remote target1 Hno)
      as (e1 & -> & _).
    by destruct (RunSteps_rejected api _ _ _ _ _ _ manifest remote target2 Hno)
      as (e2 & -> & _).
Qed.
